(** * PROT_CLUST: protein-interaction clustering pipeline

    A shallow embedding of the Python scripts under [features/]:
    the graph build of [01_run_louvain.py] and
    [05_markov_clust_highperformance_object_out.py], the bottleneck ranking
    of [04_target_bottleneck.py] and
    [prot_clust_modules/bottleneck_analysis.py], and the label vectors and
    pairwise scores of [03_reproducibility.py].

    Python data is modelled as follows.
    - A [dict] is an association list with unique keys kept in insertion
      order (Python dicts iterate in insertion order, and the scripts rely
      on it through [list(G.nodes())] and the stable [sorted]).
    - A [set] is a duplicate-free list; its iteration order is not fixed by
      Python, so wherever a script iterates over a set the order is an
      explicit argument.
    - A float weight or score is the rational number it denotes ([Q]);
      integer counts are [nat].
    - [networkx.Graph] is its adjacency dict of dicts. *)

From Stdlib Require Import List String Ascii Bool Arith ZArith QArith Qround Lia.
From Stdlib Require Import Permutation Sorted DecimalString Reals Lra.
Import ListNotations.

Set Implicit Arguments.
Close Scope R_scope.
Close Scope Q_scope.
Open Scope string_scope.
Open Scope nat_scope.
Open Scope list_scope.

(** ** Python dictionaries and lists *)

Module Py.

Definition dict (V : Type) : Type := list (string * V).

Fixpoint get {V} (k : string) (d : dict V) : option V :=
  match d with
  | [] => None
  | (k', v) :: t => if String.eqb k k' then Some v else get k t
  end.

(** [d[k] = v]: an existing key keeps its position, a new key goes last. *)
Fixpoint set {V} (k : string) (v : V) (d : dict V) : dict V :=
  match d with
  | [] => [(k, v)]
  | (k', v') :: t =>
      if String.eqb k k' then (k, v) :: t else (k', v') :: set k v t
  end.

Definition mem {V} (k : string) (d : dict V) : bool :=
  match get k d with Some _ => true | None => false end.

Definition keys {V} (d : dict V) : list string := map fst d.

(** [d.get(k, default)] *)
Definition get_default {V} (k : string) (default : V) (d : dict V) : V :=
  match get k d with Some v => v | None => default end.

(** [d[k] = f(d[k])] for a key that is present. *)
Fixpoint update {V} (k : string) (f : V -> V) (d : dict V) : dict V :=
  match d with
  | [] => []
  | (k', v') :: t =>
      if String.eqb k k' then (k', f v') :: t else (k', v') :: update k f t
  end.

(** A dict comprehension [{k: v for ...}] over the listed items. *)
Definition of_items {V} (items : list (string * V)) : dict V :=
  fold_left (fun d kv => set (fst kv) (snd kv) d) items [].

Definition map_values {V W} (f : V -> W) (d : dict V) : dict W :=
  map (fun kv => (fst kv, f (snd kv))) d.

(** [enumerate(l)], counting from [i]. *)
Fixpoint enumerate_from {A} (i : nat) (l : list A) : list (nat * A) :=
  match l with
  | [] => []
  | x :: t => (i, x) :: enumerate_from (S i) t
  end.

Definition enumerate {A} (l : list A) : list (nat * A) := enumerate_from 0 l.

(** A list built element by element where any element may raise. *)
Fixpoint all_some {A} (l : list (option A)) : option (list A) :=
  match l with
  | [] => Some []
  | Some x :: t => option_map (cons x) (all_some t)
  | None :: _ => None
  end.

(** [str(n)] for a non-negative integer. *)
Definition str (n : nat) : string := NilEmpty.string_of_uint (Nat.to_uint n).

(** [x in l] for a list or set of strings. *)
Definition contains (x : string) (l : list string) : bool :=
  existsb (String.eqb x) l.

(** [sorted(l, key=...)] and [list.sort(key=...)].  Python's sort is
    stable; for a total preorder the stable sorted arrangement of a list
    is unique, so a stable insertion sort returns the very list Python
    returns.  [le x y] decides [key(x) <= key(y)]; with [reverse=True]
    it decides [key(x) >= key(y)] (Python keeps the original order of
    equal keys in that case too). *)
Section Sorting.
Variable A : Type.
Variable le : A -> A -> bool.

Fixpoint insert (x : A) (l : list A) : list A :=
  match l with
  | [] => [x]
  | y :: t => if le x y then x :: y :: t else y :: insert x t
  end.

Fixpoint sorted (l : list A) : list A :=
  match l with
  | [] => []
  | x :: t => insert x (sorted t)
  end.
End Sorting.

End Py.

(** ** networkx.Graph *)

Module Nx.

Abbreviation node := string (only parsing).

(** [G._adj]: node -> (neighbour -> weight).  The keys of the outer dict
    are the nodes of the graph, in the order they were first seen. *)
Definition Graph : Type := Py.dict (Py.dict Q).

Definition empty : Graph := [].

Definition nodes (G : Graph) : list node := Py.keys G.

Definition add_node (n : node) (G : Graph) : Graph :=
  if Py.mem n G then G else G ++ [(n, [])].

(** [G.add_edge(u, v, weight=w)]: both endpoints are added when new, then
    [_adj[u][v]] and [_adj[v][u]] receive the weight.  networkx performs
    no check on the endpoints or on the weight. *)
Definition add_edge (G : Graph) (u v : node) (w : Q) : Graph :=
  let G1 := add_node u G in
  let G2 := add_node v G1 in
  let G3 := Py.update u (Py.set v w) G2 in
  Py.update v (Py.set u w) G3.

Definition neighbors (G : Graph) (n : node) : Py.dict Q :=
  Py.get_default n [] G.

(** [G[u][v]['weight']] when the edge exists. *)
Definition edge_weight (G : Graph) (u v : node) : option Q :=
  match Py.get u G with
  | Some nbrs => Py.get v nbrs
  | None => None
  end.

Definition has_edge (G : Graph) (u v : node) : bool :=
  match edge_weight G u v with Some _ => true | None => false end.

(** [G.subgraph(keep).copy()]: the nodes of [G] that are in [keep], with
    the edges of [G] between them, listed in the order of [G] (networkx
    goes through a small node subset in the subset's own order instead;
    only the order of nodes with equal metric values can depend on it). *)
Definition subgraph (G : Graph) (keep : list node) : Graph :=
  map (fun na : node * Py.dict Q =>
         (fst na,
          filter (fun mw : node * Q => Py.contains (fst mw) keep) (snd na)))
      (filter (fun na : node * Py.dict Q => Py.contains (fst na) keep) G).

(** [dict(G.degree())]: no [weight] argument, so networkx counts the
    adjacency entries of each node, a self-loop twice. *)
Definition degree (G : Graph) : Py.dict nat :=
  map (fun na : node * Py.dict Q =>
         (fst na,
          (List.length (snd na) + (if Py.mem (fst na) (snd na) then 1 else 0))%nat))
      G.

(** [dict(G.degree(weight="weight"))], the weighted degree: the sum of
    the weights of the adjacency entries, a self-loop twice. *)
Definition weighted_degree (G : Graph) : Py.dict Q :=
  map (fun na : node * Py.dict Q =>
         (fst na,
          (fold_right Qplus 0 (map snd (snd na))
           + Py.get_default (fst na) 0 (snd na))%Q))
      G.

Definition number_of_nodes (G : Graph) : nat := List.length G.

End Nx.

(** An input row of [cleaned_data.csv]: protein1, protein2, combined_score. *)
Definition record : Type := (string * string * Q)%type.

(** The loop that every script uses to build its graph:
    [for p1, p2, score in zip(...): G.add_edge(p1, p2, weight=score)]
    (and [G.add_weighted_edges_from], which does the same per triple). *)
Definition build_graph (rows : list record) : Nx.Graph :=
  fold_left (fun G r => let '(p1, p2, score) := r in Nx.add_edge G p1 p2 score)
            rows Nx.empty.

(** The iteration order of a freshly built Python [set] of strings depends
    on the string hashes of the run.  A [set_order] is one such order: it
    lists every element of the collection once. *)
Record set_order : Type := {
  iter : list string -> list string;
  iter_NoDup : forall l, NoDup (iter l);
  iter_In : forall l x, In x (iter l) <-> In x l
}.

(** Two of the possible orders. *)
Definition last_seen_order : set_order :=
  {| iter := nodup string_dec;
     iter_NoDup := NoDup_nodup string_dec;
     iter_In := nodup_In string_dec |}.

Definition reversed_order : set_order :=
  {| iter := fun l => rev (nodup string_dec l);
     iter_NoDup := fun l => NoDup_rev (NoDup_nodup string_dec l);
     iter_In := fun l x =>
       iff_trans (iff_sym (in_rev (nodup string_dec l) x))
                 (nodup_In string_dec l x) |}.

(** The pickled result bundle, as the analysis scripts read it back:
    [data['graph']] and [data['communities']].  (The pickle also carries
    the modularity score and the parameters of the run.) *)
Record bundle : Type := {
  graph : Nx.Graph;
  communities : list (list Nx.node)
}.

(** The node -> cluster id lookup that the scripts rebuild from the
    communities:
    [for cid, comm in enumerate(communities): for n in comm: d[n] = cid]. *)
Definition node2cluster (comms : list (list Nx.node)) : Py.dict nat :=
  fold_left
    (fun d (ic : nat * list Nx.node) =>
       fold_left (fun d n => Py.set n (fst ic) d) (snd ic) d)
    (Py.enumerate comms) [].

(** ** 01_run_louvain.py *)

Module RunLouvain.

Definition LOUVAIN_RESOLUTION : Q := 1%Q.
Definition RANDOM_SEED : nat := 42.

Section Main.
(** [networkx.algorithms.community.louvain_communities(G, weight,
    resolution, seed)]: library code. *)
Variable louvain_communities : Nx.Graph -> Q -> nat -> list (list Nx.node).

Definition main (df_interactions : list record) : bundle :=
  let G := build_graph df_interactions in
  {| graph := G;
     communities := louvain_communities G LOUVAIN_RESOLUTION RANDOM_SEED |}.
End Main.

End RunLouvain.

(** ** 05_markov_clust_highperformance_object_out.py and
       markov_clustering_highperform_object_out.py *)

Module MarkovClust.

(** [df['combined_score'] = df['combined_score'] / 1000.0] *)
Definition normalize (df : list record) : list record :=
  map (fun r : record => let '(p1, p2, score) := r in (p1, p2, (score / 1000)%Q)) df.

(** [nx.to_scipy_sparse_array(G, nodelist=nodes_list)]: entry (i, j) is
    the weight of the edge between the i-th and j-th node, 0 without one. *)
Definition to_scipy_sparse_array (G : Nx.Graph) (nodelist : list Nx.node)
  : list (list Q) :=
  map (fun u =>
         map (fun v => match Nx.edge_weight G u v with
                       | Some w => w
                       | None => 0%Q
                       end) nodelist)
      nodelist.

(** [clusters_indices.sort(key=len, reverse=True)] *)
Definition sort_by_size (clusters_indices : list (list nat)) : list (list nat) :=
  Py.sorted (fun a b => List.length b <=? List.length a) clusters_indices.

(** [[nodes_list[i] for i in indices]]; an index out of range raises. *)
Fixpoint names_of (nodes_list : list Nx.node) (indices : list nat)
  : option (list Nx.node) :=
  match indices with
  | [] => Some []
  | i :: t =>
      match nth_error nodes_list i, names_of nodes_list t with
      | Some n, Some ns => Some (n :: ns)
      | _, _ => None
      end
  end.

Record mcl_bundle : Type := {
  mcl_graph : Nx.Graph;
  mcl_communities : list (list Nx.node);
  mcl_node2cluster : Py.dict nat
}.

Section Main.
Variable S : set_order.
(** [mc.get_clusters(mc.run_mcl(matrix, inflation, expansion,
    pruning_threshold))]: library code, a list of index tuples. *)
Variable mcl_clusters : list (list Q) -> list (list nat).

(** [main] of the 05 script; [None] when an index lookup raises.
    Each community is the set [{nodes_list[i] for i in indices}]. *)
Definition main (df : list record) : option mcl_bundle :=
  let G := build_graph (normalize df) in
  let nodes_list := Nx.nodes G in
  let matrix := to_scipy_sparse_array G nodes_list in
  let clusters_indices := sort_by_size (mcl_clusters matrix) in
  match Py.all_some (map (names_of nodes_list) clusters_indices) with
  | Some members =>
      let communities := map (iter S) members in
      Some {| mcl_graph := G;
              mcl_communities := communities;
              mcl_node2cluster := node2cluster communities |}
  | None => None
  end.

(** [run_large_scale_clustering] of the annotated-graph script: the
    same steps, with each group kept as a list and the cluster id
    attached to the nodes. *)
Definition run_large_scale_clustering (df : list record)
  : option (Nx.Graph * list (list Nx.node) * Py.dict nat) :=
  let G := build_graph (normalize df) in
  let nodes_list := Nx.nodes G in
  let matrix := to_scipy_sparse_array G nodes_list in
  let clusters_indices := sort_by_size (mcl_clusters matrix) in
  match Py.all_some (map (names_of nodes_list) clusters_indices) with
  | Some community_groups =>
      Some (G, community_groups, node2cluster community_groups)
  | None => None
  end.
End Main.

End MarkovClust.

(** ** Betweenness centrality call modes *)

(** How [nx.betweenness_centrality] is called: over all sources, or with
    [k] sampled sources and a seed. *)
Inductive bc_mode : Type :=
| Exact
| Approximate (k : nat) (seed : nat).

(** ** 04_target_bottleneck.py *)

Module TargetBottleneck.

Definition TOP_N_RANKING : nat := 40.

Record row : Type := {
  Protein : Nx.node;
  BC_Rank : nat;
  Deg_Rank : nat;
  Clust_Rank : nat;
  Total_Score : nat
}.

(** [sorted(scores.items(), key=lambda x: x[1], reverse=...)[:N]];
    [before x y] decides whether value [x] may stand before value [y]. *)
Definition top_window {V} (before : V -> V -> bool) (N : nat)
           (scores : Py.dict V) : list (Nx.node * V) :=
  firstn N (Py.sorted (fun a b => before (snd a) (snd b)) scores).

(** [{p: i+1 for i, (p, _) in enumerate(window)}] *)
Definition rank_lookup {V} (window : list (Nx.node * V)) : Py.dict nat :=
  Py.of_items
    (map (fun ip : nat * (Nx.node * V) => (fst (snd ip), fst ip + 1))
         (Py.enumerate window)).

Definition descending (x y : Q) : bool := Qle_bool y x.
Definition ascending (x y : Q) : bool := Qle_bool x y.
Definition descending_nat (x y : nat) : bool := y <=? x.

Section Ranking.
Variable S : set_order.
Variable N : nat.
Variable bc_scores : Py.dict Q.
Variable deg_scores : Py.dict nat.
Variable clust_scores : Py.dict Q.

Definition sorted_bc := top_window descending N bc_scores.
Definition sorted_deg := top_window descending_nat N deg_scores.
Definition sorted_clust := top_window ascending N clust_scores.

Definition bc_ranks := rank_lookup sorted_bc.
Definition deg_ranks := rank_lookup sorted_deg.
Definition clust_ranks := rank_lookup sorted_clust.

(** [set(bc_ranks.keys()) | set(deg_ranks.keys()) | set(clust_ranks.keys())] *)
Definition unique_proteins : list Nx.node :=
  iter S (Py.keys bc_ranks ++ Py.keys deg_ranks ++ Py.keys clust_ranks).

Definition combined_row (p : Nx.node) : row :=
  let r_bc := Py.get_default p (N + 1) bc_ranks in
  let r_deg := Py.get_default p (N + 1) deg_ranks in
  let r_clust := Py.get_default p (N + 1) clust_ranks in
  {| Protein := p; BC_Rank := r_bc; Deg_Rank := r_deg;
     Clust_Rank := r_clust; Total_Score := r_bc + r_deg + r_clust |}.

(** The list before [combined_results.sort]. *)
Definition unsorted_results : list row := map combined_row unique_proteins.

(** [combined_results.sort(key=lambda x: x["Total_Score"])] *)
Definition combined_results : list row :=
  Py.sorted (fun a b => Total_Score a <=? Total_Score b) unsorted_results.
End Ranking.

(** What one run of the script leaves behind: the lines printed up to
    the analysis, and the rank table when one was computed.  (The lines
    printed after the ranking only format [combined_results].) *)
Record run : Type := {
  stdout : list string;
  results : option (list row)
}.

Section Main.
Variable S : set_order.
(** [nx.betweenness_centrality(G, weight="weight", normalized=True)]
    and [nx.clustering(G, weight="weight")]: library code. *)
Variable betweenness_centrality : Nx.Graph -> bc_mode -> Py.dict Q.
Variable clustering : Nx.Graph -> Py.dict Q.

(** [pickle_file] is the content of INPUT_PICKLE_PATH, when it exists. *)
Definition main (TARGET_PROTEIN : string) (pickle_file : option bundle) : run :=
  let line0 := "[INFO] Loading data..."%string in
  match pickle_file with
  | None => {| stdout := [line0; "Pickle not found."%string]; results := None |}
  | Some data =>
      let G := graph data in
      let node2cluster_id := node2cluster (communities data) in
      match Py.get TARGET_PROTEIN node2cluster_id with
      | None =>
          {| stdout :=
               [line0;
                ("[ERROR] Target protein '" ++ TARGET_PROTEIN
                   ++ "' not found in the network.")%string];
             results := None |}
      | Some target_cluster_id =>
          let target_nodes :=
            iter S (map fst (filter (fun nc : Nx.node * nat =>
                                       snd nc =? target_cluster_id)
                                    node2cluster_id)) in
          let target_subgraph := Nx.subgraph G target_nodes in
          let bc_scores := betweenness_centrality target_subgraph Exact in
          let deg_scores := Nx.degree target_subgraph in
          let clust_scores := clustering target_subgraph in
          {| stdout :=
               [line0;
                ("[INFO] Target '" ++ TARGET_PROTEIN ++ "' found in Cluster ID: "
                   ++ Py.str target_cluster_id)%string;
                ("[INFO] Extracted target cluster with "
                   ++ Py.str (List.length target_nodes) ++ " nodes.")%string;
                "[INFO] Performing bottleneck analysis on target subgraph..."%string];
             results :=
               Some (combined_results S TOP_N_RANKING
                                      bc_scores deg_scores clust_scores) |}
      end
  end.
End Main.

End TargetBottleneck.

(** ** prot_clust_modules/bottleneck_analysis.py *)

Module BottleneckAnalysis.

(** [get_ranks(metric_dict, ascending)]: rank 1 is the first item of the
    stable sort on the values. *)
Definition get_ranks {V} (le : V -> V -> bool) (metric_dict : Py.dict V)
           (ascending : bool) : Py.dict nat :=
  let sorted_items :=
    Py.sorted (fun a b : Nx.node * V =>
                 if ascending then le (snd a) (snd b) else le (snd b) (snd a))
              metric_dict in
  Py.of_items
    (map (fun ri : nat * (Nx.node * V) => (fst (snd ri), fst ri + 1))
         (Py.enumerate sorted_items)).

(** The binary64 constant written [0.20] in the source. *)
Definition float_0_20 : Q := (3602879701896397 # 18014398509481984)%Q.

(** [k_sample = int(len(subG) * 0.20)].  The product is taken exactly;
    rounding it to binary64 cannot move it across an integer for node
    counts below 2^52, so [int] truncates to the same value. *)
Definition k_sample (n : nat) : nat :=
  Z.to_nat (Qfloor (inject_Z (Z.of_nat n) * float_0_20)%Q).

(** The default values of [top_n] and [large_cluster_limit]. *)
Definition default_top_n : nat := 20.
Definition default_large_cluster_limit : nat := 500.

(** The branch on [len(subG) > large_cluster_limit]. *)
Definition betweenness_mode (n large_cluster_limit : nat) : bc_mode :=
  if large_cluster_limit <? n then Approximate (k_sample n) 42 else Exact.

Record brow : Type := {
  Protein : Nx.node;
  Total_Score : nat;
  BC : Q;
  Degree : nat;
  Clustering : Q
}.

(** What is on disk at [pickle_path]. *)
Inductive pickle_state : Type :=
| Missing
| Unreadable (e : string)
| Pickled (data : bundle).

(** The returned dictionary. *)
Inductive result : Type :=
| Failure (error : string)
    (* {"error": msg} *)
| Report (dataframe : list brow) (cluster_id : nat) (html : bool)
    (* {"dataframe", "html_path", "png_path", "cluster_id", "error": None} *)
| Raised (exception : string).

Inductive effect : Type :=
| MakeDirs (output_dir : string)
    (* os.makedirs(os.path.join(output_dir, "images"), exist_ok=True) *)
| ToCsv (output_dir : string) (cluster_id : nat) (df : list brow)
| SavePng (output_dir : string) (cluster_id : nat)
| SaveHtml (output_dir : string) (cluster_id : nat).

(** One call: the value returned, the files touched, and the objects
    [G] and [communities] as they stand when the call returns. *)
Record call : Type := {
  returned : result;
  effects : list effect;
  loaded : option bundle
}.

Section BtlAnal.
Variable PYVIS_AVAILABLE : bool.
Variable betweenness_centrality : Nx.Graph -> bc_mode -> Py.dict Q.
Variable clustering : Nx.Graph -> Py.dict Q.
(** [DataFrame.sort_values("Total_Score").reset_index(drop=True)]:
    pandas code (its default sort kind is not a stable one). *)
Variable sort_values : list brow -> list brow.

Definition score_row (bc : Py.dict Q) (deg : Py.dict nat) (clust : Py.dict Q)
           (rank_bc rank_deg rank_clust : Py.dict nat) (n : Nx.node)
  : option brow :=
  match Py.get n rank_bc, Py.get n rank_deg, Py.get n rank_clust,
        Py.get n bc, Py.get n deg, Py.get n clust with
  | Some rb, Some rd, Some rc, Some b, Some d, Some c =>
      Some {| Protein := n; Total_Score := rb + rd + rc;
              BC := b; Degree := d; Clustering := c |}
  | _, _, _, _, _, _ => None
  end.

Definition btl_anal (target_protein pickle_path output_dir : string)
           (top_n large_cluster_limit : nat) (disk : pickle_state) : call :=
  let made := [MakeDirs output_dir] in
  match disk with
  | Missing =>
      {| returned := Failure ("Pickle file not found at " ++ pickle_path);
         effects := made; loaded := None |}
  | Unreadable e =>
      {| returned := Failure ("Failed to load pickle: " ++ e);
         effects := made; loaded := None |}
  | Pickled data =>
      let G := graph data in
      let comms := communities data in
      let n2c := node2cluster comms in
      match Py.get target_protein n2c with
      | None =>
          {| returned :=
               Failure ("Protein '" ++ target_protein
                          ++ "' not found in the graph.");
             effects := made; loaded := Some data |}
      | Some cluster_id =>
          let target_nodes := nth cluster_id comms [] in
          let subG := Nx.subgraph G target_nodes in
          let deg := Nx.degree subG in
          let clust := clustering subG in
          let bc :=
            betweenness_centrality subG
              (betweenness_mode (Nx.number_of_nodes subG) large_cluster_limit) in
          let rank_bc := get_ranks Qle_bool bc false in
          let rank_deg := get_ranks Nat.leb deg false in
          let rank_clust := get_ranks Qle_bool clust true in
          match Py.all_some
                  (map (score_row bc deg clust rank_bc rank_deg rank_clust)
                       (Nx.nodes subG)) with
          | None =>
              {| returned := Raised "KeyError";
                 effects := made; loaded := Some data |}
          | Some results =>
              let df := sort_values results in
              {| returned := Report df cluster_id PYVIS_AVAILABLE;
                 effects :=
                   made ++ [ToCsv output_dir cluster_id df;
                            SavePng output_dir cluster_id]
                        ++ (if PYVIS_AVAILABLE
                            then [SaveHtml output_dir cluster_id] else []);
                 loaded := Some data |}
          end
      end
  end.
End BtlAnal.

End BottleneckAnalysis.

(** ** sklearn.metrics: the two agreement scores

    The scores are the formulas of scikit-learn's
    [metrics/cluster/_supervised.py], evaluated on integer counts and, for
    the logarithms, on real numbers. *)

Module Sklearn.

Definition sumZ (l : list nat) (f : nat -> Z) : Z :=
  fold_right (fun a acc => (f a + acc)%Z) 0%Z l.

Definition sumR (l : list nat) (f : nat -> R) : R :=
  fold_right (fun a acc => (f a + acc)%R) 0%R l.

(** [np.unique(labels)]: the distinct labels. *)
Definition unique (labels : list nat) : list nat := nodup Nat.eq_dec labels.

Section Scores.
Variables labels_true labels_pred : list nat.

Definition classes : list nat := unique labels_true.
Definition clusters : list nat := unique labels_pred.
Definition n_samples : Z := Z.of_nat (List.length labels_true).

(** [contingency_matrix]: entry (a, b) counts the samples labelled [a]
    in the first vector and [b] in the second. *)
Definition contingency (a b : nat) : Z :=
  Z.of_nat (List.length
              (filter (fun p : nat * nat => (fst p =? a) && (snd p =? b))
                      (combine labels_true labels_pred))).

(** Row and column sums of the contingency matrix. *)
Definition n_c (a : nat) : Z := sumZ clusters (fun b => contingency a b).
Definition n_k (b : nat) : Z := sumZ classes (fun a => contingency a b).

Definition sum_squares : Z :=
  sumZ classes (fun a => sumZ clusters (fun b => contingency a b * contingency a b))%Z.

(** [pair_confusion_matrix]: C11, C01, C10, C00. *)
Definition C11 : Z := (sum_squares - n_samples)%Z.
Definition C01 : Z :=
  (sumZ classes (fun a => sumZ clusters (fun b => contingency a b * n_k b))
   - sum_squares)%Z.
Definition C10 : Z :=
  (sumZ classes (fun a => sumZ clusters (fun b => contingency a b * n_c a))
   - sum_squares)%Z.
Definition C00 : Z := (n_samples * n_samples - C01 - C10 - sum_squares)%Z.

Definition adjusted_rand_score : R :=
  let tn := C00 in
  let fp := C01 in
  let fn := C10 in
  let tp := C11 in
  if (fn =? 0)%Z && (fp =? 0)%Z then 1%R
  else (2 * IZR (tp * tn - fn * fp)
        / IZR ((tp + fn) * (fn + tn) + (tp + fp) * (fp + tn)))%R.

(** [mutual_info_score] on the contingency matrix; only its non-zero
    entries contribute.  (The library also zeroes the terms smaller than
    the machine epsilon, a guard against rounding noise that has no
    counterpart in exact arithmetic.) *)
Definition mutual_info_score : R :=
  if (List.length classes =? 1) || (List.length clusters =? 1) then 0%R
  else
    let contingency_sum :=
      IZR (sumZ classes (fun a => sumZ clusters (fun b => contingency a b))) in
    let pi_sum := IZR (sumZ classes n_c) in
    let pj_sum := IZR (sumZ clusters n_k) in
    Rmax 0
      (sumR classes (fun a =>
         sumR clusters (fun b =>
           if (contingency a b =? 0)%Z then 0%R
           else
             let contingency_nm := (IZR (contingency a b) / contingency_sum)%R in
             let log_outer :=
               (- ln (IZR (n_c a * n_k b)) + ln pi_sum + ln pj_sum)%R in
             (contingency_nm * (ln (IZR (contingency a b)) - ln contingency_sum)
              + contingency_nm * log_outer)%R))).
End Scores.

Definition count (labels : list nat) (a : nat) : Z :=
  Z.of_nat (List.length (filter (Nat.eqb a) labels)).

(** [entropy(labels)] *)
Definition entropy (labels : list nat) : R :=
  match labels with
  | [] => 1%R
  | _ =>
      let pi := unique labels in
      if List.length pi =? 1 then 0%R
      else
        let pi_sum := IZR (sumZ pi (count labels)) in
        (- sumR pi (fun a =>
                      IZR (count labels a) / pi_sum
                      * (ln (IZR (count labels a)) - ln pi_sum)))%R
  end.

(** [normalized_mutual_info_score] with its default arithmetic mean. *)
Definition normalized_mutual_info_score (labels_true labels_pred : list nat) : R :=
  let n_classes := List.length (classes labels_true) in
  let n_clusters := List.length (clusters labels_pred) in
  if ((n_classes =? 1) && (n_clusters =? 1))
     || ((n_classes =? 0) && (n_clusters =? 0)) then 1%R
  else
    let mi := mutual_info_score labels_true labels_pred in
    if Req_EM_T mi 0 then 0%R
    else
      let h_true := entropy labels_true in
      let h_pred := entropy labels_pred in
      (mi / ((h_true + h_pred) / 2))%R.


End Sklearn.

(** ** 03_reproducibility.py *)

Module Reproducibility.

#[warnings="-abstract-large-number"]
Definition SEEDS : list nat := [1; 50; 100; 200; 500; 1000; 3000; 5000; 7000; 10000].
Definition RESOLUTION : Q := 1%Q.

(** [communities_to_labels(communities, nodes)]; [node2label[n]] raises
    for a node that no community holds. *)
Definition communities_to_labels (comms : list (list Nx.node))
           (nodes : list Nx.node) : option (list nat) :=
  let node2label := node2cluster comms in
  Py.all_some (map (fun n => Py.get n node2label) nodes).

(** [itertools.combinations(l, 2)] *)
Fixpoint combinations {A} (l : list A) : list (A * A) :=
  match l with
  | [] => []
  | x :: t => map (pair x) t ++ combinations t
  end.

(** [np.mean] *)
Definition mean (xs : list R) : R :=
  (fold_right Rplus 0 xs / INR (List.length xs))%R.

Record report : Type := {
  ari_scores : list R;
  nmi_scores : list R;
  mean_ari : R;
  mean_nmi : R
}.

(** The comparison of the runs: label vectors, then both scores for
    every unordered pair of runs. *)
Definition compare (all_community_sets : list (list (list Nx.node)))
           (nodes_list : list Nx.node) : option report :=
  match Py.all_some
          (map (fun comms => communities_to_labels comms nodes_list)
               all_community_sets) with
  | None => None
  | Some label_vectors =>
      let pairs := combinations label_vectors in
      let ari := map (fun vv => Sklearn.adjusted_rand_score (fst vv) (snd vv)) pairs in
      let nmi := map (fun vv => Sklearn.normalized_mutual_info_score (fst vv) (snd vv))
                     pairs in
      Some {| ari_scores := ari; nmi_scores := nmi;
              mean_ari := mean ari; mean_nmi := mean nmi |}
  end.

Section Main.
Variable louvain_communities : Nx.Graph -> Q -> nat -> list (list Nx.node).

Definition main (data : bundle) : option report :=
  let G := graph data in
  let nodes_list := Nx.nodes G in
  let all_community_sets :=
    map (fun s => louvain_communities G RESOLUTION s) SEEDS in
  compare all_community_sets nodes_list.
End Main.

End Reproducibility.

(** ** The claims of the specification, as predicates on the embedding *)

(** A graph without self-loops and with strictly positive weights. *)
Definition valid_graph (G : Nx.Graph) : Prop :=
  forall u v w, Nx.edge_weight G u v = Some w -> u <> v /\ (0 < w)%Q.

(** The degree vector holds weighted degrees. *)
Definition degree_is_weighted (G : Nx.Graph) : Prop :=
  forall n d, Py.get n (Nx.degree G) = Some d ->
    exists q, Py.get n (Nx.weighted_degree G) = Some q
              /\ (q == inject_Z (Z.of_nat d))%Q.




(** Rows of equal aggregate score stand in the order of their protein
    identifiers. *)
Definition ties_broken_by_identifier (table : list TargetBottleneck.row) : Prop :=
  forall i j ri rj,
    i < j -> nth_error table i = Some ri -> nth_error table j = Some rj ->
    TargetBottleneck.Total_Score ri = TargetBottleneck.Total_Score rj ->
    String.ltb (TargetBottleneck.Protein ri) (TargetBottleneck.Protein rj) = true.

(** The path A - B - C - D with unit weights as one community, and what
    networkx computes on it: normalized betweenness 2/3 for the two inner
    nodes and 0 for the ends, clustering coefficient 0 everywhere. *)
Definition path_data : bundle :=
  {| graph := build_graph [("A", "B", 1%Q); ("B", "C", 1%Q); ("C", "D", 1%Q)];
     communities := [["A"; "B"; "C"; "D"]] |}.

Definition path_betweenness (_ : Nx.Graph) (_ : bc_mode) : Py.dict Q :=
  [("A", 0%Q); ("B", (2 # 3)%Q); ("C", (2 # 3)%Q); ("D", 0%Q)].

Definition path_clustering (_ : Nx.Graph) : Py.dict Q :=
  [("A", 0%Q); ("B", 0%Q); ("C", 0%Q); ("D", 0%Q)].


(** Every weight of the graph after [f]. *)
Definition map_weights (f : Q -> Q) (G : Nx.Graph) : Nx.Graph :=
  Py.map_values (Py.map_values f) G.

Definition reweigh (f : Q -> Q) (rows : list record) : list record :=
  map (fun r : record => let '(p1, p2, score) := r in (p1, p2, f score)) rows.

(** ** Reference functions for the graph build *)

(** The weight that the rows leave on the pair {u, v}: that of the last
    row joining [u] and [v], in either direction. *)
Fixpoint last_weight (rows : list record) (u v : string) : option Q :=
  match rows with
  | [] => None
  | (p1, p2, score) :: t =>
      match last_weight t u v with
      | Some w => Some w
      | None =>
          if (String.eqb p1 u && String.eqb p2 v)
             || (String.eqb p1 v && String.eqb p2 u)
          then Some score else None
      end
  end.

(** The two endpoints of every row. *)
Definition endpoints (rows : list record) : list string :=
  flat_map (fun r : record => let '(p1, p2, _) := r in [p1; p2]) rows.

(** The index of the last community that holds [n]. *)
Fixpoint last_holder (comms : list (list string)) (n : string) : option nat :=
  match comms with
  | [] => None
  | c :: t =>
      match last_holder t n with
      | Some j => Some (S j)
      | None => if Py.contains n c then Some 0 else None
      end
  end.

(** ** markov_clustering_highperformance.py *)

Module MarkovClustCsv.

Record csv_row : Type := {
  Protein : Nx.node;
  Cluster_ID : nat;
  Cluster_Size : nat
}.

(** The rows appended for one cluster: one per member, with the 1-based
    cluster id and the size of the cluster. *)
Definition cluster_rows (cluster_id : nat) (members : list Nx.node) : list csv_row :=
  map (fun member =>
         {| Protein := member;
            Cluster_ID := cluster_id + 1;
            Cluster_Size := List.length members |})
      members.

Section Main.
Variable mcl_clusters : list (list Q) -> list (list nat).

(** [run_large_scale_clustering] of the CSV script: the community groups
    and the rows of [results_df]; [None] when an index lookup raises. *)
Definition run_large_scale_clustering (df : list record)
  : option (list (list Nx.node) * list csv_row) :=
  let G := build_graph (MarkovClust.normalize df) in
  let matrix := MarkovClust.to_scipy_sparse_array G (Nx.nodes G) in
  let clusters_indices := MarkovClust.sort_by_size (mcl_clusters matrix) in
  let nodes_list := Nx.nodes G in
  match Py.all_some (map (MarkovClust.names_of nodes_list) clusters_indices) with
  | Some community_groups =>
      Some (community_groups,
            flat_map (fun ic : nat * list Nx.node => cluster_rows (fst ic) (snd ic))
                     (Py.enumerate community_groups))
  | None => None
  end.
End Main.

End MarkovClustCsv.

(** ** prot_clust_modules/cluster_overview.py *)

Module ClusterOverview.

(** What a call leaves behind: the value returned with the lines printed
    and the text files written (directory, file name, lines), or an
    exception that escapes. *)
Inductive outcome (A : Type) : Type :=
| Returns (value : A) (printed : list string)
          (written : list (string * string * list string))
| Raises (exception : string).

Arguments Returns {A} value printed written.
Arguments Raises {A} exception.

Definition newline : string := String (ascii_of_nat 10) "".

(** [str(i)] for an integer. *)
Definition str_int (i : Z) : string := NilEmpty.string_of_int (Z.to_int i).

(** [_load_pickle_data(pickle_path)]: the pair (data, error). *)
Definition _load_pickle_data (pickle_path : string)
           (disk : BottleneckAnalysis.pickle_state)
  : option bundle * option string :=
  match disk with
  | BottleneckAnalysis.Missing =>
      (None, Some ("File not found: " ++ pickle_path)%string)
  | BottleneckAnalysis.Unreadable e => (None, Some e)
  | BottleneckAnalysis.Pickled data => (Some data, None)
  end.

(** The truth value of [error] in [if error:]: [None] and the empty
    string are false. *)
Definition truthy (error : option string) : bool :=
  match error with
  | Some (String _ _) => true
  | _ => false
  end.

Section GetProteins.
(** [os.path.join]: library code. *)
Variable os_path_join : string -> string -> string.

Definition get_proteins_in_cluster (pickle_path : string) (cluster_id : Z)
           (output_filename output_dir : string)
           (disk : BottleneckAnalysis.pickle_state)
  : outcome (option (list string)) :=
  let line0 := (newline ++ "[OVERVIEW] Fetching proteins for Cluster ID "
                  ++ str_int cluster_id ++ "...")%string in
  let '(data, error) := _load_pickle_data pickle_path disk in
  if truthy error then
    Returns None
            [line0; ("❌ Error: " ++ match error with Some e => e | None => "" end)%string]
            []
  else
    match data with
    | None => Raises "TypeError"
    | Some data =>
        let comms := communities data in
        if (cluster_id <? 0)%Z || (Z.of_nat (List.length comms) <=? cluster_id)%Z then
          Returns None
                  [line0;
                   ("❌ Error: Cluster ID " ++ str_int cluster_id ++ " invalid.")%string]
                  []
        else
          let protein_list :=
            Py.sorted String.leb (nth (Z.to_nat cluster_id) comms []) in
          let full_path := os_path_join output_dir output_filename in
          let top_50 := firstn 50 protein_list in
          let total_count := List.length protein_list in
          Returns (Some protein_list)
                  ([line0;
                    ("   ✅ Saved list to: " ++ full_path)%string;
                    (newline ++ "--- Proteins in Cluster " ++ str_int cluster_id
                       ++ " (Showing top 50 of " ++ Py.str total_count ++ ") ---")%string;
                    String.concat ", " top_50]
                   ++ (if 50 <? total_count
                       then [("... and " ++ Py.str (total_count - 50) ++ " more.")%string]
                       else []))
                  [(output_dir, output_filename, protein_list)]
    end.
End GetProteins.

End ClusterOverview.

(** ** More views of networkx.Graph *)

Module NxViews.

(** [G.edges()]: every edge once, from the node that comes first in the
    node order; a neighbour that has already been gone through is
    skipped. *)
Fixpoint edges_from (seen : list Nx.node) (adj : Nx.Graph) : list (Nx.node * Nx.node) :=
  match adj with
  | [] => []
  | (n, nbrs) :: t =>
      map (pair n) (filter (fun m => negb (Py.contains m seen)) (Py.keys nbrs))
      ++ edges_from (n :: seen) t
  end.

Definition edges (G : Nx.Graph) : list (Nx.node * Nx.node) := edges_from [] G.

End NxViews.

(** ** louvain_clust_object_out.py *)

Module LouvainObjectOut.

Definition LOUVAIN_RESOLUTION : Q := 1%Q.
Definition LOUVAIN_SEED : nat := 42.

(** The pickled graph object: the graph and the [cluster_id] attribute of
    its nodes (a node without the attribute has no entry). *)
Record annotated : Type := {
  ag_graph : Nx.Graph;
  cluster_id : Py.dict nat
}.

(** [nx.set_node_attributes(G, values, "cluster_id")] on a graph without
    attributes: a key of [values] that is not a node is skipped. *)
Definition set_node_attributes (G : Nx.Graph) (values : Py.dict nat) : Py.dict nat :=
  fold_left (fun attrs (nv : string * nat) =>
               if Py.mem (fst nv) G then Py.set (fst nv) (snd nv) attrs else attrs)
            values [].

Record summary : Type := {
  saved : annotated;
  total_clusters : nat;
  community_sizes : list nat;
  largest_10 : list nat
}.

Section Main.
Variable louvain_communities : Nx.Graph -> Q -> nat -> list (list Nx.node).

Definition main (df : list record) : summary :=
  let G := build_graph df in
  let comms := louvain_communities G LOUVAIN_RESOLUTION LOUVAIN_SEED in
  let cluster_mapping := node2cluster comms in
  let sizes := Py.sorted (fun a b : nat => b <=? a) (map (@List.length string) comms) in
  {| saved := {| ag_graph := G; cluster_id := set_node_attributes G cluster_mapping |};
     total_clusters := List.length comms;
     community_sizes := sizes;
     largest_10 := firstn 10 sizes |}.
End Main.

End LouvainObjectOut.

(** ** plotting/plot_louvain.py *)

Module PlotLouvain.

Definition TARGET_NODE_COLOR : string := "black".
Definition CLUSTER_NODE_COLOR : string := "#3b5b92".
Definition TARGET_EDGE_WIDTH : Q := 3%Q.
Definition NORMAL_EDGE_WIDTH : Q := (1 # 2)%Q.

(** What is at INPUT_PICKLE_PATH. *)
Inductive pickle_state : Type :=
| Missing
| Unreadable (e : string)
| Pickled (G : LouvainObjectOut.annotated).

(** The error lines printed before an early return, or what is drawn. *)
Inductive outcome : Type :=
| Stopped (printed : list string)
| Plotted (target_cluster_id : nat) (cluster_nodes : list Nx.node)
          (node_colors : list string)
          (styled_edges : list (Nx.node * Nx.node * Q * string)).

Definition plot_cluster (INPUT_PICKLE_PATH protein_name : string)
           (disk : pickle_state) : outcome :=
  match disk with
  | Missing =>
      Stopped [("Error: Pickle file not found at " ++ INPUT_PICKLE_PATH)%string;
               "Please run 'run_louvain_graph.py' first."]
  | Unreadable e => Stopped [("Error loading graph: " ++ e)%string]
  | Pickled ag =>
      let G := LouvainObjectOut.ag_graph ag in
      if negb (Py.mem protein_name G) then
        Stopped [("Error: Protein '" ++ protein_name
                    ++ "' not found in the dataset.")%string]
      else
        match Py.get protein_name (LouvainObjectOut.cluster_id ag) with
        | None =>
            Stopped ["Error: Node found, but it has no cluster_id. Did you run the Louvain script?"]
        | Some target_cluster_id =>
            let cluster_nodes :=
              filter (fun n => match Py.get n (LouvainObjectOut.cluster_id ag) with
                               | Some c => c =? target_cluster_id
                               | None => false
                               end)
                     (Nx.nodes G) in
            let H := Nx.subgraph G cluster_nodes in
            let node_colors :=
              map (fun node => if String.eqb node protein_name
                               then TARGET_NODE_COLOR else CLUSTER_NODE_COLOR)
                  (Nx.nodes H) in
            let styled_edges :=
              map (fun uv : Nx.node * Nx.node =>
                     if String.eqb (fst uv) protein_name || String.eqb (snd uv) protein_name
                     then (fst uv, snd uv, TARGET_EDGE_WIDTH, "black")
                     else (fst uv, snd uv, NORMAL_EDGE_WIDTH, "lightgray"))
                  (NxViews.edges H) in
            Plotted target_cluster_id cluster_nodes node_colors styled_edges
        end
  end.

End PlotLouvain.

(** ** 02_analyze_clusters.py *)

Module AnalyzeClusters.

Definition OUTPUT_DIR : string := "data/output".
Definition OUTPUT_STATS_CSV : string := "cluster_statistics.csv".
Definition DISPLAY_TOP_N_ROWS : nat := 20.

(** [G.number_of_edges()]: [int(G.size())], and [size] is half the sum of
    the degrees, [s // 2]. *)
Definition number_of_edges (G : Nx.Graph) : nat :=
  fold_right Nat.add 0 (map snd (Nx.degree G)) / 2.

(** [nx.density(G)] for an undirected graph:
    [if m == 0 or n <= 1: return 0; d = m / (n * (n - 1)); d *= 2].
    The quotient is taken exactly; binary64 rounding is monotone and the
    doubling is exact, so a bound by 1/2 on the quotient is kept. *)
Definition density (G : Nx.Graph) : Q :=
  let n := Nx.number_of_nodes G in
  let m := number_of_edges G in
  if (m =? 0) || (n <=? 1) then 0%Q
  else (inject_Z (Z.of_nat m) / inject_Z (Z.of_nat (n * (n - 1))) * 2)%Q.

(** [collections.Counter(values)]: the count of each value, the values in
    the order they are first met. *)
Fixpoint counter_incr (k : nat) (c : list (nat * nat)) : list (nat * nat) :=
  match c with
  | [] => [(k, 1)]
  | (k', n) :: t =>
      if k' =? k then (k', S n) :: t else (k', n) :: counter_incr k t
  end.

Definition Counter (values : list nat) : list (nat * nat) :=
  fold_left (fun c k => counter_incr k c) values [].

(** [np.median] of a list of counts: the middle value, or the mean of the
    two middle values; [None] stands for the nan of an empty list. *)
Definition np_median (l : list nat) : option Q :=
  let s := Py.sorted Nat.leb l in
  let n := List.length l in
  let lower := nth (n / 2 - 1) s 0 in
  let upper := nth (n / 2) s 0 in
  if n =? 0 then None
  else if Nat.odd n then Some (inject_Z (Z.of_nat upper))
  else Some ((inject_Z (Z.of_nat lower) + inject_Z (Z.of_nat upper)) / 2)%Q.

(** One row of the statistics table. *)
Record crow : Type := {
  Cluster_ID : nat;
  Size : nat;
  Edges : nat;
  Density : Q;
  Avg_Clustering : Q
}.

(** The global figures printed and the table saved and shown. *)
Record stats : Type := {
  total_nodes_clustered : nat;
  total_communities : nat;
  median_size : option Q;
  df_clusters : list crow;
  csv : string * string * list crow;
  displayed : list crow
}.

Inductive outcome : Type :=
| NotFound (printed : list string)
| Raised (exception : string)
| Analysed (result : stats).

Section Main.
(** [nx.average_clustering(H, weight="weight")]: library code; [None]
    when it raises. *)
Variable average_clustering : Nx.Graph -> option Q.
(** [DataFrame.sort_values(by="Size (Nodes)", ascending=False)]: pandas
    code (its default sort kind is not a stable one). *)
Variable sort_values : list crow -> list crow.

Definition cluster_row (G : Nx.Graph) (ic : nat * list Nx.node) : crow :=
  let H := Nx.subgraph G (snd ic) in
  let avg_clust :=
    if 1 <? Nx.number_of_nodes H
    then match average_clustering H with Some c => c | None => 0%Q end
    else 0%Q in
  {| Cluster_ID := fst ic;
     Size := Nx.number_of_nodes H;
     Edges := number_of_edges H;
     Density := density H;
     Avg_Clustering := avg_clust |}.

Definition main (INPUT_PICKLE_PATH : string)
           (disk : BottleneckAnalysis.pickle_state) : outcome :=
  match disk with
  | BottleneckAnalysis.Missing =>
      NotFound [("[ERROR] Pickle file not found at " ++ INPUT_PICKLE_PATH)%string;
                "[HINT] Please run Script 1 (01_run_louvain.py) first."%string]
  | BottleneckAnalysis.Unreadable e => Raised e
  | BottleneckAnalysis.Pickled data =>
      let G := graph data in
      let comms := communities data in
      let node2cluster_id := node2cluster comms in
      let sizes := Counter (map snd node2cluster_id) in
      let rows := map (cluster_row G) (Py.enumerate comms) in
      match rows with
      | [] =>
          (* a frame without rows has no column to sort by *)
          Raised "KeyError"
      | _ :: _ =>
          let df := sort_values rows in
          Analysed
            {| total_nodes_clustered := List.length node2cluster_id;
               total_communities := List.length comms;
               median_size := np_median (map snd sizes);
               df_clusters := df;
               csv := (OUTPUT_DIR, OUTPUT_STATS_CSV, df);
               displayed := firstn DISPLAY_TOP_N_ROWS df |}
      end
  end.
End Main.

End AnalyzeClusters.

(** A graph as [build_graph] leaves it when no record joins a protein
    with itself: every adjacency lists distinct nodes of the graph, never
    the node itself. *)
Definition adj_ok (ns : list Nx.node) (na : Nx.node * Py.dict Q) : Prop :=
  NoDup (Py.keys (snd na))
  /\ ~ In (fst na) (Py.keys (snd na))
  /\ incl (Py.keys (snd na)) ns.

Definition simple_graph (G : Nx.Graph) : Prop :=
  NoDup (Nx.nodes G) /\ Forall (adj_ok (Nx.nodes G)) G.

(** * Facts about dictionaries *)

Section DictFacts.
Context {V : Type}.
Implicit Types (d : Py.dict V) (k : string).

Lemma get_set_same k (v : V) d : Py.get k (Py.set k v d) = Some v.
Proof.
  induction d as [|[k' v'] t IH]; simpl.
  - now rewrite String.eqb_refl.
  - destruct (String.eqb k k') eqn:E; simpl.
    + now rewrite String.eqb_refl.
    + now rewrite E.
Qed.

Lemma get_set_other k k' (v : V) d :
  k <> k' -> Py.get k' (Py.set k v d) = Py.get k' d.
Proof.
  intros Hne. induction d as [|[k0 v0] t IH]; simpl.
  - destruct (String.eqb k' k) eqn:E; [|reflexivity].
    apply String.eqb_eq in E. congruence.
  - destruct (String.eqb k k0) eqn:E; simpl.
    + apply String.eqb_eq in E. subst k0.
      destruct (String.eqb k' k) eqn:E'; [|reflexivity].
      apply String.eqb_eq in E'. congruence.
    + now rewrite IH.
Qed.

Lemma get_update_same k (f : V -> V) d :
  Py.get k (Py.update k f d) = option_map f (Py.get k d).
Proof.
  induction d as [|[k' v'] t IH]; simpl; [reflexivity|].
  destruct (String.eqb k k') eqn:E; simpl; now rewrite E.
Qed.

Lemma get_update_other k k' (f : V -> V) d :
  k <> k' -> Py.get k' (Py.update k f d) = Py.get k' d.
Proof.
  intros Hne. induction d as [|[k0 v0] t IH]; simpl; [reflexivity|].
  destruct (String.eqb k k0) eqn:E; simpl.
  - apply String.eqb_eq in E. subst k0.
    destruct (String.eqb k' k) eqn:E'; [|reflexivity].
    apply String.eqb_eq in E'. congruence.
  - now rewrite IH.
Qed.

Lemma get_app k d1 d2 :
  Py.get k (d1 ++ d2) =
  match Py.get k d1 with Some v => Some v | None => Py.get k d2 end.
Proof.
  induction d1 as [|[k' v'] t IH]; simpl; [reflexivity|].
  now destruct (String.eqb k k').
Qed.

Lemma get_None_keys k d : Py.get k d = None <-> ~ In k (Py.keys d).
Proof.
  induction d as [|[k' v'] t IH]; simpl.
  - tauto.
  - destruct (String.eqb k k') eqn:E.
    + apply String.eqb_eq in E. subst. split; [discriminate|tauto].
    + apply String.eqb_neq in E. rewrite IH. split.
      * intros H [H'|H']; [congruence|tauto].
      * tauto.
Qed.

Lemma keys_set k (v : V) d x :
  In x (Py.keys (Py.set k v d)) <-> x = k \/ In x (Py.keys d).
Proof.
  induction d as [|[k' v'] t IH]; simpl.
  - intuition.
  - destruct (String.eqb k k') eqn:E; simpl.
    + apply String.eqb_eq in E. subst. intuition.
    + rewrite IH. intuition.
Qed.

Lemma keys_update k (f : V -> V) d : Py.keys (Py.update k f d) = Py.keys d.
Proof.
  unfold Py.keys. induction d as [|[k' v'] t IH]; simpl; [reflexivity|].
  destruct (String.eqb k k'); simpl; [reflexivity|]. now rewrite IH.
Qed.
End DictFacts.

Section MapValues.
Context {V W : Type} (F : V -> W).

Lemma get_map_values k (d : Py.dict V) :
  Py.get k (Py.map_values F d) = option_map F (Py.get k d).
Proof.
  induction d as [|[k' v'] t IH]; simpl; [reflexivity|].
  now destruct (String.eqb k k').
Qed.

Lemma mem_map_values k (d : Py.dict V) :
  Py.mem k (Py.map_values F d) = Py.mem k d.
Proof. unfold Py.mem. rewrite get_map_values. now destruct (Py.get k d). Qed.

Lemma set_map_values k v (d : Py.dict V) :
  Py.map_values F (Py.set k v d) = Py.set k (F v) (Py.map_values F d).
Proof.
  unfold Py.map_values. induction d as [|[k' v'] t IH]; simpl; [reflexivity|].
  destruct (String.eqb k k'); simpl; [reflexivity|]. now rewrite IH.
Qed.

Lemma update_map_values k (g : V -> V) (g' : W -> W) (d : Py.dict V) :
  (forall x, F (g x) = g' (F x)) ->
  Py.map_values F (Py.update k g d) = Py.update k g' (Py.map_values F d).
Proof.
  intros Hc. unfold Py.map_values.
  induction d as [|[k' v'] t IH]; simpl; [reflexivity|].
  destruct (String.eqb k k'); simpl.
  - now rewrite Hc.
  - now rewrite IH.
Qed.

Lemma keys_map_values (d : Py.dict V) : Py.keys (Py.map_values F d) = Py.keys d.
Proof.
  unfold Py.keys, Py.map_values. rewrite map_map. reflexivity.
Qed.
End MapValues.

(** * Facts about the graph store *)

Lemma mem_add_node n G : Py.mem n (Nx.add_node n G) = true.
Proof.
  unfold Nx.add_node. destruct (Py.mem n G) eqn:E; [exact E|].
  unfold Py.mem in *. rewrite get_app.
  destruct (Py.get n G); [discriminate|]. simpl. now rewrite String.eqb_refl.
Qed.

Lemma mem_add_node_mono n m G : Py.mem n G = true -> Py.mem n (Nx.add_node m G) = true.
Proof.
  unfold Nx.add_node. intros H. destruct (Py.mem m G); [exact H|].
  unfold Py.mem in *. rewrite get_app. now destruct (Py.get n G).
Qed.

Lemma add_node_map_weights f n G :
  map_weights f (Nx.add_node n G) = Nx.add_node n (map_weights f G).
Proof.
  unfold Nx.add_node, map_weights. rewrite mem_map_values.
  destruct (Py.mem n G); [reflexivity|].
  unfold Py.map_values. now rewrite map_app.
Qed.

Lemma add_edge_map_weights f G u v w :
  map_weights f (Nx.add_edge G u v w) = Nx.add_edge (map_weights f G) u v (f w).
Proof.
  unfold Nx.add_edge. unfold map_weights at 1.
  rewrite update_map_values with (g' := Py.set u (f w))
    by (intro; apply set_map_values).
  rewrite update_map_values with (g' := Py.set v (f w))
    by (intro; apply set_map_values).
  fold (map_weights f (Nx.add_node v (Nx.add_node u G))).
  now rewrite !add_node_map_weights.
Qed.

Lemma build_graph_from_map_weights f rows G :
  fold_left (fun G r => let '(p1, p2, score) := r in Nx.add_edge G p1 p2 score)
            (reweigh f rows) (map_weights f G)
  = map_weights f
      (fold_left (fun G (r : record) => let '(p1, p2, score) := r in Nx.add_edge G p1 p2 score)
                 rows G).
Proof.
  revert G. induction rows as [|[[p1 p2] s] t IH]; intros G; simpl; [reflexivity|].
  rewrite <- add_edge_map_weights. apply IH.
Qed.

Lemma build_graph_reweigh f rows :
  build_graph (reweigh f rows) = map_weights f (build_graph rows).
Proof. exact (build_graph_from_map_weights f rows Nx.empty). Qed.

Lemma edge_weight_map_weights f G u v :
  Nx.edge_weight (map_weights f G) u v = option_map f (Nx.edge_weight G u v).
Proof.
  unfold Nx.edge_weight, map_weights. rewrite get_map_values.
  destruct (Py.get u G); simpl; [apply get_map_values|reflexivity].
Qed.

Lemma edge_weight_add_edge G u v w :
  Nx.edge_weight (Nx.add_edge G u v w) u v = Some w
  /\ Nx.edge_weight (Nx.add_edge G u v w) v u = Some w.
Proof.
  unfold Nx.add_edge, Nx.edge_weight.
  set (G2 := Nx.add_node v (Nx.add_node u G)).
  assert (Hu : exists a, Py.get u G2 = Some a).
  { assert (H : Py.mem u G2 = true)
      by (apply mem_add_node_mono, mem_add_node).
    unfold Py.mem in H. destruct (Py.get u G2) as [a|]; [now exists a|discriminate]. }
  assert (Hv : exists b, Py.get v G2 = Some b).
  { assert (H : Py.mem v G2 = true) by apply mem_add_node.
    unfold Py.mem in H. destruct (Py.get v G2) as [b|]; [now exists b|discriminate]. }
  destruct Hu as [a Ha], Hv as [b Hb].
  destruct (string_dec u v) as [->|Hne].
  - rewrite !get_update_same, Hb. simpl. now rewrite get_set_same.
  - rewrite get_update_same, (get_update_other (Py.set v w)) by exact Hne.
    rewrite (get_update_other (Py.set u w)) by congruence.
    rewrite get_update_same, Ha, Hb. simpl. now rewrite !get_set_same.
Qed.

Lemma build_graph_snoc rows u v w :
  build_graph (rows ++ [(u, v, w)]) = Nx.add_edge (build_graph rows) u v w.
Proof. unfold build_graph. now rewrite fold_left_app. Qed.

Lemma degree_map_weights f G : Nx.degree (map_weights f G) = Nx.degree G.
Proof.
  unfold Nx.degree, map_weights. unfold Py.map_values at 1. rewrite map_map.
  apply map_ext. intros [n nbrs]. simpl.
  rewrite mem_map_values. unfold Py.map_values. now rewrite length_map.
Qed.

Lemma filter_keys_map_values (f : Q -> Q) (p : string -> bool) (d : Py.dict Q) :
  filter (fun mw : string * Q => p (fst mw)) (Py.map_values f d)
  = Py.map_values f (filter (fun mw : string * Q => p (fst mw)) d).
Proof.
  unfold Py.map_values. induction d as [|[m w] r IH]; simpl; [reflexivity|].
  destruct (p m); simpl; now rewrite IH.
Qed.

Lemma filter_map_swap {A : Type} (p : A -> bool) (h : A -> A) (l : list A) :
  (forall x, p (h x) = p x) -> filter p (map h l) = map h (filter p l).
Proof.
  intros Hp. induction l as [|x t IH]; simpl; [reflexivity|].
  rewrite Hp. destruct (p x); simpl; now rewrite IH.
Qed.

Lemma subgraph_map_weights f G keep :
  Nx.subgraph (map_weights f G) keep = map_weights f (Nx.subgraph G keep).
Proof.
  unfold Nx.subgraph, map_weights. unfold Py.map_values at 1 3.
  rewrite filter_map_swap by reflexivity.
  rewrite !map_map. apply map_ext. intros [n nbrs]. simpl.
  now rewrite (filter_keys_map_values f (fun m => Py.contains m keep)).
Qed.

Lemma get_degree n G :
  Py.get n (Nx.degree G)
  = option_map (fun nbrs : Py.dict Q =>
                  List.length nbrs + (if Py.mem n nbrs then 1 else 0))
               (Py.get n G).
Proof.
  unfold Nx.degree. induction G as [|[m nbrs] t IH]; simpl; [reflexivity|].
  destruct (String.eqb n m) eqn:E; [|exact IH].
  apply String.eqb_eq in E. now subst.
Qed.

Lemma build_graph_stores_every_record_aux rows u v w :
  Nx.edge_weight (build_graph (rows ++ [(u, v, w)])) u v = Some w
  /\ Nx.edge_weight (build_graph (rows ++ [(u, v, w)])) v u = Some w.
Proof. rewrite build_graph_snoc. apply edge_weight_add_edge. Qed.

(** * The graph build *)

(** C2 (amended): inserting a record never fails.  Whatever the endpoints
    and the weight are, also for [u = v] and for a weight that is zero or
    negative, the build stores the weight of the record on the edge between
    its endpoints, in both directions, replacing any earlier weight. *)
Theorem build_graph_stores_every_record :
  forall (rows : list record) (u v : Nx.node) (w : Q),
    Nx.edge_weight (build_graph (rows ++ [(u, v, w)])) u v = Some w
    /\ Nx.edge_weight (build_graph (rows ++ [(u, v, w)])) v u = Some w.
Proof.
  intros rows u v w. apply build_graph_stores_every_record_aux.
Qed.

(** C2 as stated fails: a self-loop row and a row of weight 0 each end up
    in the built graph. *)
Lemma build_graph_keeps_invalid_edges :
  ~ valid_graph (build_graph [("P1", "P1", 1%Q)])
  /\ ~ valid_graph (build_graph [("P1", "P2", 0%Q)]).
Proof.
  split; intros H.
  - destruct (H "P1" "P1" 1%Q eq_refl) as [Hne _]. now apply Hne.
  - destruct (H "P1" "P2" 0%Q eq_refl) as [_ Hpos]. discriminate Hpos.
Qed.

(** C10: the Markov-clustering script builds its graph from the scores
    divided by 1000 and the Louvain script from the raw scores.  For the
    same rows both graphs have the same nodes in the same order and the
    same edges, every weight of the first being the weight of the second
    divided by 1000; a row (a, b, w) that is the last one for its pair puts
    w/1000 on the edge in the first graph and w in the second. *)
Theorem mcl_graph_is_louvain_graph_scaled :
  forall (louvain : Nx.Graph -> Q -> nat -> list (list Nx.node))
         (df : list record),
    let G_louvain := graph (RunLouvain.main louvain df) in
    let G_mcl := build_graph (MarkovClust.normalize df) in
    (forall S mcl, match MarkovClust.main S mcl df with
                   | Some b => MarkovClust.mcl_graph b = G_mcl
                   | None => True
                   end)
    /\ Nx.nodes G_mcl = Nx.nodes G_louvain
    /\ (forall u v, Nx.edge_weight G_mcl u v
                    = option_map (fun w => (w / 1000)%Q) (Nx.edge_weight G_louvain u v))
    /\ (forall a b w,
          Nx.edge_weight (build_graph (MarkovClust.normalize (df ++ [(a, b, w)]))) a b
          = Some (w / 1000)%Q
          /\ Nx.edge_weight (graph (RunLouvain.main louvain (df ++ [(a, b, w)]))) a b
             = Some w).
Proof.
  intros louvain df G_louvain G_mcl.
  assert (Hscale : forall rows, build_graph (MarkovClust.normalize rows)
                   = map_weights (fun w => (w / 1000)%Q) (build_graph rows)).
  { intros rows.
    change (MarkovClust.normalize rows) with (reweigh (fun w => (w / 1000)%Q) rows).
    apply build_graph_reweigh. }
  split; [|split; [|split]].
  - intros S mcl. unfold MarkovClust.main.
    destruct (Py.all_some _); [reflexivity|exact I].
  - unfold G_mcl, G_louvain. rewrite Hscale. simpl.
    unfold Nx.nodes, map_weights. apply keys_map_values.
  - intros u v. unfold G_mcl, G_louvain. rewrite Hscale. simpl.
    apply edge_weight_map_weights.
  - intros a b w. split.
    + rewrite Hscale, edge_weight_map_weights.
      exact (f_equal (option_map (fun q => (q / 1000)%Q))
                     (proj1 (build_graph_stores_every_record_aux df a b w))).
    + simpl. apply build_graph_stores_every_record_aux.
Qed.

(** * The degree vector of the bottleneck ranker *)

(** C3 (amended): the degree vector that both bottleneck analyses compute,
    [dict(subG.degree())], gives every node of the community subgraph the
    number of its adjacency entries there (its neighbours, a self-loop
    counted twice).  The weights play no part: changing every weight of the
    input rows leaves the vector unchanged. *)
Theorem degree_vector_counts_edges :
  forall (G : Nx.Graph) (keep : list Nx.node),
    (forall n,
        Py.get n (Nx.degree (Nx.subgraph G keep))
        = option_map (fun nbrs : Py.dict Q =>
                        List.length nbrs + (if Py.mem n nbrs then 1 else 0))
                     (Py.get n (Nx.subgraph G keep)))
    /\ (forall f, Nx.degree (Nx.subgraph (map_weights f G) keep)
                  = Nx.degree (Nx.subgraph G keep))
    /\ (forall f rows, Nx.degree (Nx.subgraph (build_graph (reweigh f rows)) keep)
                       = Nx.degree (Nx.subgraph (build_graph rows) keep)).
Proof.
  intros G keep. split; [|split].
  - intros n. apply get_degree.
  - intros f. now rewrite subgraph_map_weights, degree_map_weights.
  - intros f rows.
    now rewrite build_graph_reweigh, subgraph_map_weights, degree_map_weights.
Qed.

(** C3 as stated fails: with the single row (A, B, 5) the degree vector
    gives A the value 1, while the sum of its incident weights is 5. *)
Lemma degree_vector_is_not_weighted :
  ~ degree_is_weighted
      (Nx.subgraph (build_graph [("A", "B", 5%Q)]) ["A"; "B"]).
Proof.
  intros H. destruct (H "A" 1 eq_refl) as [q [Hq Heq]].
  vm_compute in Hq. injection Hq as <-. discriminate Heq.
Qed.

(** * The sampling size of the approximate betweenness *)

Lemma k_sample_fifth (n : nat) :
  (Z.of_nat n < 2 ^ 52)%Z -> BottleneckAnalysis.k_sample n = n / 5.
Proof.
  intros Hn. unfold BottleneckAnalysis.k_sample, BottleneckAnalysis.float_0_20.
  unfold Qfloor, Qmult, inject_Z. cbn [Qnum Qden].
  change (Z.pos (1 * 18014398509481984)) with 18014398509481984%Z.
  assert (H5 : (Z.of_nat n = 5 * Z.of_nat (n / 5) + Z.of_nat (n mod 5))%Z).
  { rewrite <- Nat2Z.inj_mul with (n := 5), <- Nat2Z.inj_add.
    f_equal. apply Nat.div_mod_eq. }
  assert (Hr : n mod 5 < 5) by (apply Nat.mod_upper_bound; discriminate).
  change (2 ^ 52)%Z with 4503599627370496%Z in Hn.
  assert (Hq : (Z.of_nat n * 3602879701896397 / 18014398509481984
                = Z.of_nat (n / 5))%Z).
  { symmetry.
    apply Z.div_unique
      with (r := (Z.of_nat (n / 5) + Z.of_nat (n mod 5) * 3602879701896397)%Z);
      lia. }
  rewrite Hq. apply Nat2Z.id.
Qed.




(** * Facts about the stable sort *)

Section SortedFacts.
Context {A : Type} (le : A -> A -> bool).

Lemma insert_perm x l : Permutation (Py.insert le x l) (x :: l).
Proof.
  induction l as [|y t IH]; simpl; [reflexivity|].
  destruct (le x y); [reflexivity|].
  rewrite IH. apply perm_swap.
Qed.

Lemma sorted_perm l : Permutation (Py.sorted le l) l.
Proof.
  induction l as [|x t IH]; simpl; [reflexivity|].
  rewrite insert_perm. now constructor.
Qed.

Lemma sorted_length l : List.length (Py.sorted le l) = List.length l.
Proof. apply Permutation_length, sorted_perm. Qed.

Hypothesis le_total : forall x y, le x y = true \/ le y x = true.
Hypothesis le_trans : forall x y z, le x y = true -> le y z = true -> le x z = true.

Lemma insert_sorted x l :
  StronglySorted (fun a b => le a b = true) l ->
  StronglySorted (fun a b => le a b = true) (Py.insert le x l).
Proof.
  induction 1 as [|y t Hs IH Hall]; simpl.
  - repeat constructor.
  - destruct (le x y) eqn:E.
    + constructor; [now constructor|].
      constructor; [exact E|].
      eapply Forall_impl; [|exact Hall]. intros z Hz. now apply le_trans with y.
    + constructor; [exact IH|].
      assert (Hyx : le y x = true) by (destruct (le_total x y); congruence).
      rewrite Forall_forall. intros z Hz.
      apply (Permutation_in _ (insert_perm x t)) in Hz.
      destruct Hz as [<-|Hz]; [exact Hyx|].
      rewrite Forall_forall in Hall. now apply Hall.
Qed.

Lemma sorted_sorted l : StronglySorted (fun a b => le a b = true) (Py.sorted le l).
Proof.
  induction l as [|x t IH]; simpl; [constructor|]. now apply insert_sorted.
Qed.
End SortedFacts.


(** * Facts about the node list and the index lookup *)

Lemma keys_add_node n (G : Nx.Graph) :
  NoDup (Py.keys G) -> NoDup (Py.keys (Nx.add_node n G)).
Proof.
  intros Hnd. unfold Nx.add_node, Py.mem.
  destruct (Py.get n G) eqn:E; [exact Hnd|].
  unfold Py.keys. rewrite map_app. simpl.
  apply get_None_keys in E.
  apply NoDup_app; [exact Hnd|repeat constructor; intros []|].
  intros x Hx [<-|[]]. now apply E.
Qed.

Lemma nodes_add_edge_NoDup G u v w :
  NoDup (Nx.nodes G) -> NoDup (Nx.nodes (Nx.add_edge G u v w)).
Proof.
  intros Hnd. unfold Nx.nodes, Nx.add_edge. rewrite !keys_update.
  now apply keys_add_node, keys_add_node.
Qed.

Lemma nodes_build_graph_NoDup rows : NoDup (Nx.nodes (build_graph rows)).
Proof.
  unfold build_graph.
  assert (H : forall G, NoDup (Nx.nodes G) ->
            NoDup (Nx.nodes (fold_left
              (fun G (r : record) => let '(p1, p2, score) := r in Nx.add_edge G p1 p2 score)
              rows G))).
  { induction rows as [|[[p1 p2] s] t IH]; intros G HG; simpl; [exact HG|].
    apply IH. now apply nodes_add_edge_NoDup. }
  apply H. constructor.
Qed.

Lemma names_of_length nodes_list indices names :
  MarkovClust.names_of nodes_list indices = Some names ->
  List.length names = List.length indices.
Proof.
  revert names. induction indices as [|i t IH]; intros names; simpl.
  - intros [= <-]. reflexivity.
  - destruct (nth_error nodes_list i); [|discriminate].
    destruct (MarkovClust.names_of nodes_list t); [|discriminate].
    intros [= <-]. simpl. f_equal. now apply IH.
Qed.





Lemma all_some_Forall2 {A B : Type} (f : A -> option B) (l : list A) ys :
  Py.all_some (map f l) = Some ys -> Forall2 (fun x y => f x = Some y) l ys.
Proof.
  revert ys. induction l as [|x t IH]; intros ys; simpl.
  - intros [= <-]. constructor.
  - destruct (f x) eqn:E; [|discriminate].
    destruct (Py.all_some (map f t)); [|discriminate].
    simpl. intros [= <-]. constructor; [exact E|]. now apply IH.
Qed.


(** * The community list of the Markov-clustering scripts *)

Lemma StronglySorted_map {A B : Type} (f : A -> B) (R : B -> B -> Prop) (l : list A) :
  StronglySorted (fun x y => R (f x) (f y)) l -> StronglySorted R (map f l).
Proof.
  induction 1 as [|x t Hs IH Hall]; simpl; constructor; [exact IH|].
  rewrite Forall_forall in *. intros y Hy.
  apply in_map_iff in Hy. destruct Hy as [z [<- Hz]]. now apply Hall.
Qed.


Lemma sort_by_size_sorted clusters :
  StronglySorted (fun a b : list nat => (List.length b <=? List.length a) = true)
                 (MarkovClust.sort_by_size clusters).
Proof.
  unfold MarkovClust.sort_by_size.
  apply (sorted_sorted (fun a b : list nat => List.length b <=? List.length a)).
  - intros x y. rewrite !Nat.leb_le. lia.
  - intros x y z. rewrite !Nat.leb_le. lia.
Qed.



(** * The rank table of 04_target_bottleneck.py *)

Lemma keys_of_items_from {V : Type} (items : list (string * V)) (d : Py.dict V) x :
  In x (Py.keys (fold_left (fun d kv => Py.set (fst kv) (snd kv) d) items d))
  <-> In x (map fst items) \/ In x (Py.keys d).
Proof.
  revert d. induction items as [|[k v] t IH]; intros d; simpl.
  - tauto.
  - rewrite IH, keys_set. simpl. intuition.
Qed.

Lemma keys_of_items {V : Type} (items : list (string * V)) x :
  In x (Py.keys (Py.of_items items)) <-> In x (map fst items).
Proof.
  unfold Py.of_items. rewrite keys_of_items_from. simpl. tauto.
Qed.

Lemma enumerate_from_names {V : Type} (i : nat) (l : list (string * V)) :
  map fst (map (fun ip : nat * (string * V) => (fst (snd ip), fst ip + 1))
               (Py.enumerate_from i l))
  = map fst l.
Proof.
  revert i. induction l as [|x t IH]; intros i; simpl; [reflexivity|].
  now rewrite IH.
Qed.


Lemma StronglySorted_weaken {A : Type} (R R' : A -> A -> Prop) (l : list A) :
  (forall a b, R a b -> R' a b) -> StronglySorted R l -> StronglySorted R' l.
Proof.
  intros Himp. induction 1 as [|x t Hs IH Hall]; constructor; [exact IH|].
  eapply Forall_impl; [|exact Hall]. intros y. apply Himp.
Qed.

(** The stable sort keeps the rows of one score in their earlier order. *)
Lemma sorted_stable {A : Type} (key : A -> nat) (k : nat) (l : list A) :
  filter (fun r => key r =? k) (Py.sorted (fun a b => key a <=? key b) l)
  = filter (fun r => key r =? k) l.
Proof.
  assert (Hins : forall x t,
    filter (fun r => key r =? k) (Py.insert (fun a b => key a <=? key b) x t)
    = filter (fun r => key r =? k) (x :: t)).
  { intros x t. induction t as [|y t IH]; [reflexivity|].
    cbn [Py.insert]. destruct (key x <=? key y) eqn:E; [reflexivity|].
    apply Nat.leb_gt in E. cbn [filter] in *. rewrite IH.
    destruct (key x =? k) eqn:Ex; [|reflexivity].
    apply Nat.eqb_eq in Ex.
    destruct (key y =? k) eqn:Ey; [|reflexivity].
    apply Nat.eqb_eq in Ey. lia. }
  induction l as [|x t IH]; [reflexivity|].
  cbn [Py.sorted]. rewrite Hins. cbn [filter]. now rewrite IH.
Qed.


(** C6 (amended): the rank table of the top-N script is sorted by a stable
    sort on the aggregate score alone.  The rows of any one score stand in
    the order in which the script's set of candidate proteins iterates;
    their identifiers are not compared. *)
Theorem tied_rows_keep_set_order :
  forall (S : set_order) (N : nat)
         (bc_scores : Py.dict Q) (deg_scores : Py.dict nat) (clust_scores : Py.dict Q)
         (score : nat),
    map TargetBottleneck.Protein
        (filter (fun r => TargetBottleneck.Total_Score r =? score)
                (TargetBottleneck.combined_results S N bc_scores deg_scores clust_scores))
    = filter (fun p =>
                TargetBottleneck.Total_Score
                  (TargetBottleneck.combined_row N bc_scores deg_scores clust_scores p)
                =? score)
             (TargetBottleneck.unique_proteins S N bc_scores deg_scores clust_scores).
Proof.
  intros S N bc deg clust score.
  unfold TargetBottleneck.combined_results.
  rewrite (sorted_stable TargetBottleneck.Total_Score).
  unfold TargetBottleneck.unsorted_results.
  induction (TargetBottleneck.unique_proteins S N bc deg clust) as [|p t IH];
    [reflexivity|].
  cbn [map filter].
  destruct (TargetBottleneck.Total_Score
              (TargetBottleneck.combined_row N bc deg clust p) =? score);
    cbn [map]; now rewrite IH.
Qed.

(** C6 as stated fails.  On the path A - B - C - D the nodes A and C both
    score 7; with the candidate set iterating C before A the table lists C
    before A, and another iteration order of the same set gives another
    table for the same input. *)
Lemma tied_nodes_not_in_identifier_order :
  TargetBottleneck.results
    (TargetBottleneck.main reversed_order path_betweenness path_clustering
                           "A" (Some path_data))
  = Some [ {| TargetBottleneck.Protein := "B"; TargetBottleneck.BC_Rank := 1;
              TargetBottleneck.Deg_Rank := 1; TargetBottleneck.Clust_Rank := 2;
              TargetBottleneck.Total_Score := 4 |};
           {| TargetBottleneck.Protein := "C"; TargetBottleneck.BC_Rank := 2;
              TargetBottleneck.Deg_Rank := 2; TargetBottleneck.Clust_Rank := 3;
              TargetBottleneck.Total_Score := 7 |};
           {| TargetBottleneck.Protein := "A"; TargetBottleneck.BC_Rank := 3;
              TargetBottleneck.Deg_Rank := 3; TargetBottleneck.Clust_Rank := 1;
              TargetBottleneck.Total_Score := 7 |};
           {| TargetBottleneck.Protein := "D"; TargetBottleneck.BC_Rank := 4;
              TargetBottleneck.Deg_Rank := 4; TargetBottleneck.Clust_Rank := 4;
              TargetBottleneck.Total_Score := 12 |} ]
  /\ ~ (forall table,
          TargetBottleneck.results
            (TargetBottleneck.main reversed_order path_betweenness path_clustering
                                   "A" (Some path_data)) = Some table ->
          ties_broken_by_identifier table)
  /\ TargetBottleneck.results
       (TargetBottleneck.main last_seen_order path_betweenness path_clustering
                              "A" (Some path_data))
     <> TargetBottleneck.results
          (TargetBottleneck.main reversed_order path_betweenness path_clustering
                                 "A" (Some path_data)).
Proof.
  split; [vm_compute; reflexivity|]. split.
  - intros H. specialize (H _ eq_refl 1 2 _ _ (le_n 2) eq_refl eq_refl eq_refl).
    vm_compute in H. discriminate H.
  - vm_compute. discriminate.
Qed.

(** * Locating the target protein *)

Lemma keys_assign_all (cid : nat) (comm : list string) (d : Py.dict nat) x :
  In x (Py.keys (fold_left (fun d n => Py.set n cid d) comm d))
  <-> In x comm \/ In x (Py.keys d).
Proof.
  revert d. induction comm as [|n t IH]; intros d; simpl.
  - tauto.
  - rewrite IH, keys_set. intuition.
Qed.

Lemma keys_node2cluster_from (i : nat) (comms : list (list string)) (d : Py.dict nat) x :
  In x (Py.keys
          (fold_left
             (fun d (ic : nat * list string) =>
                fold_left (fun d n => Py.set n (fst ic) d) (snd ic) d)
             (Py.enumerate_from i comms) d))
  <-> (exists c, In c comms /\ In x c) \/ In x (Py.keys d).
Proof.
  revert i d. induction comms as [|c t IH]; intros i d; simpl.
  - split; [tauto|]. intros [[c [[] _]]|H]; exact H.
  - rewrite IH. cbn [fst snd]. rewrite keys_assign_all. split.
    + intros [[c' [Hc Hx]]|[Hx|Hx]].
      * left. exists c'. auto.
      * left. exists c. auto.
      * now right.
    + intros [[c' [[<-|Hc] Hx]]|Hx].
      * right. now left.
      * left. exists c'. auto.
      * right. now right.
Qed.

Lemma keys_node2cluster (comms : list (list string)) x :
  In x (Py.keys (node2cluster comms)) <-> exists c, In c comms /\ In x c.
Proof.
  unfold node2cluster, Py.enumerate. rewrite keys_node2cluster_from.
  simpl. tauto.
Qed.

Lemma node2cluster_absent (comms : list (list string)) target :
  (forall c, In c comms -> ~ In target c) ->
  Py.get target (node2cluster comms) = None.
Proof.
  intros Habs. apply get_None_keys. rewrite keys_node2cluster.
  intros [c [Hc Hx]]. exact (Habs c Hc Hx).
Qed.

(** C9: for a target protein that no community of the loaded partition
    holds, [btl_anal] returns the error dictionary whose message names the
    protein, with no rank table and no report file written (the image
    directory alone has been created), and the top-N script prints the
    error line naming the protein and stops before any ranking.  The
    loaded graph and communities are as they were loaded. *)
Theorem missing_target_is_reported :
  forall (target : string) (data : bundle),
    (forall c, In c (communities data) -> ~ In target c) ->
    (forall pyvis betweenness clustering sort_values pickle_path output_dir top_n limit,
        BottleneckAnalysis.btl_anal pyvis betweenness clustering sort_values
          target pickle_path output_dir top_n limit (BottleneckAnalysis.Pickled data)
        = {| BottleneckAnalysis.returned :=
               BottleneckAnalysis.Failure
                 ("Protein '" ++ target ++ "' not found in the graph.")%string;
             BottleneckAnalysis.effects := [BottleneckAnalysis.MakeDirs output_dir];
             BottleneckAnalysis.loaded := Some data |})
    /\ (forall S betweenness clustering,
          TargetBottleneck.main S betweenness clustering target (Some data)
          = {| TargetBottleneck.stdout :=
                 ["[INFO] Loading data...";
                  ("[ERROR] Target protein '" ++ target
                     ++ "' not found in the network.")%string];
               TargetBottleneck.results := None |}).
Proof.
  intros target data Habs.
  pose proof (@node2cluster_absent _ _ Habs) as Hnone. split.
  - intros. unfold BottleneckAnalysis.btl_anal. now rewrite Hnone.
  - intros. unfold TargetBottleneck.main. now rewrite Hnone.
Qed.

Lemma missing_target_is_reported_witness :
  (forall c, In c (communities path_data) -> ~ In "SNCAIP" c)
  /\ BottleneckAnalysis.returned
       (BottleneckAnalysis.btl_anal true path_betweenness path_clustering (fun df => df)
          "SNCAIP" "data/output/louvain_clust_julle.pkl" "data/output"
          BottleneckAnalysis.default_top_n
          BottleneckAnalysis.default_large_cluster_limit
          (BottleneckAnalysis.Pickled path_data))
     = BottleneckAnalysis.Failure "Protein 'SNCAIP' not found in the graph.".
Proof.
  assert (Habs : forall c, In c (communities path_data) -> ~ In "SNCAIP" c).
  { intros c [<-|[]] H. simpl in H. intuition discriminate. }
  split; [exact Habs|].
  rewrite (proj1 (missing_target_is_reported "SNCAIP" path_data Habs)).
  reflexivity.
Defined.

(** * The agreement scores on identical label vectors *)

Section Sums.
Import Sklearn.








End Sums.


Section IdenticalLabels.
Import Sklearn.
Variable v : list nat.












End IdenticalLabels.

Section IdenticalLabelsInformation.
Import Sklearn.








End IdenticalLabelsInformation.

(** * The reproducibility comparison of identical runs *)







(** * What the Markov-clustering script adds to the library's clusters *)

Lemma concat_perm {A : Type} (l l' : list (list A)) :
  Permutation l l' -> Permutation (List.concat l) (List.concat l').
Proof.
  induction 1; simpl.
  - reflexivity.
  - now apply Permutation_app_head.
  - rewrite !app_assoc. apply Permutation_app_tail, Permutation_app_comm.
  - etransitivity; eassumption.
Qed.

Lemma names_of_map nodes_list indices names :
  MarkovClust.names_of nodes_list indices = Some names ->
  names = map (fun i => nth i nodes_list "") indices.
Proof.
  revert names. induction indices as [|i t IH]; intros names; simpl.
  - now intros [= <-].
  - destruct (nth_error nodes_list i) eqn:E; [|discriminate].
    destruct (MarkovClust.names_of nodes_list t); [|discriminate].
    intros [= <-]. f_equal; [|now apply IH].
    symmetry. now apply nth_error_nth.
Qed.

Lemma map_nth_seq (l : list string) :
  map (fun i => nth i l "") (seq 0 (List.length l)) = l.
Proof.
  induction l as [|x t IH]; [reflexivity|].
  cbn [List.length seq map nth]. f_equal.
  rewrite <- seq_shift, map_map. exact IH.
Qed.

Lemma concat_iter_perm (S : set_order) (members : list (list string)) :
  NoDup (List.concat members) ->
  Permutation (List.concat (map (iter S) members)) (List.concat members).
Proof.
  induction members as [|m ms IH]; intros Hnd; simpl; [reflexivity|].
  simpl in Hnd. apply Permutation_app.
  - apply NoDup_Permutation;
      [apply iter_NoDup|eapply NoDup_app_remove_r; exact Hnd|apply iter_In].
  - apply IH. eapply NoDup_app_remove_l; exact Hnd.
Qed.

(** When the library's index tuples list every position of the node list
    exactly once, the communities of the script list every node of the
    graph exactly once. *)
Lemma communities_list_every_node_once :
  forall (S : set_order) (mcl : list (list Q) -> list (list nat)) (df : list record),
    let G := build_graph (MarkovClust.normalize df) in
    Permutation (List.concat (mcl (MarkovClust.to_scipy_sparse_array G (Nx.nodes G))))
                (seq 0 (List.length (Nx.nodes G))) ->
    match MarkovClust.main S mcl df with
    | Some b => Permutation (List.concat (MarkovClust.mcl_communities b))
                            (Nx.nodes (MarkovClust.mcl_graph b))
    | None => True
    end.
Proof.
  intros S mcl df G Hp. unfold MarkovClust.main. fold G.
  set (raw := mcl (MarkovClust.to_scipy_sparse_array G (Nx.nodes G))) in *.
  destruct (Py.all_some _) as [members|] eqn:Hm; [|exact I]. simpl.
  apply all_some_Forall2 in Hm.
  assert (Hc : List.concat members
               = map (fun i => nth i (Nx.nodes G) "")
                     (List.concat (MarkovClust.sort_by_size raw))).
  { clear -Hm. induction Hm as [|c m cs ms Hcm _ IH]; simpl; [reflexivity|].
    rewrite map_app, <- IH. f_equal. now apply names_of_map. }
  assert (Hperm : Permutation (List.concat members) (Nx.nodes G)).
  { rewrite Hc.
    apply Permutation_trans
      with (map (fun i => nth i (Nx.nodes G) "") (seq 0 (List.length (Nx.nodes G))));
      [|now rewrite map_nth_seq].
    apply Permutation_map. rewrite <- Hp.
    apply concat_perm. apply sorted_perm. }
  rewrite concat_iter_perm; [exact Hperm|].
  eapply Permutation_NoDup; [symmetry; exact Hperm|].
  apply nodes_build_graph_NoDup.
Qed.

(** * More on the graph store *)

Unset Implicit Arguments.

Lemma get_mem_true {V : Type} (k : string) (d : Py.dict V) :
  Py.mem k d = true <-> In k (Py.keys d).
Proof.
  unfold Py.mem. destruct (Py.get k d) eqn:E.
  - split; [|reflexivity]. intros _.
    destruct (in_dec string_dec k (Py.keys d)) as [H|H]; [exact H|].
    apply get_None_keys in H. congruence.
  - split; [discriminate|]. intros H. apply get_None_keys in E. contradiction.
Qed.

Lemma get_update (k k' : string) (f : Py.dict Q -> Py.dict Q) (G : Nx.Graph) :
  Py.get k' (Py.update k f G)
  = if String.eqb k k' then option_map f (Py.get k' G) else Py.get k' G.
Proof.
  destruct (String.eqb k k') eqn:E.
  - apply String.eqb_eq in E. subst. apply get_update_same.
  - apply String.eqb_neq in E. now apply get_update_other.
Qed.

Lemma get_set (k k' : string) (w : Q) (d : Py.dict Q) :
  Py.get k' (Py.set k w d) = if String.eqb k k' then Some w else Py.get k' d.
Proof.
  destruct (String.eqb k k') eqn:E.
  - apply String.eqb_eq in E. subst. apply get_set_same.
  - apply String.eqb_neq in E. now apply get_set_other.
Qed.

Lemma edge_weight_add_node n G u v :
  Nx.edge_weight (Nx.add_node n G) u v = Nx.edge_weight G u v.
Proof.
  unfold Nx.add_node, Nx.edge_weight. destruct (Py.mem n G); [reflexivity|].
  rewrite get_app. destruct (Py.get u G); [reflexivity|].
  simpl. now destruct (String.eqb u n).
Qed.

Lemma get_add_node_Some n G :
  exists a, Py.get n (Nx.add_node n G) = Some a.
Proof.
  pose proof (mem_add_node n G) as H. unfold Py.mem in H.
  destruct (Py.get n (Nx.add_node n G)) as [a|]; [now exists a|discriminate].
Qed.

(** The weight of any pair after one insertion. *)
Lemma edge_weight_add_edge_any G a b w u v :
  Nx.edge_weight (Nx.add_edge G a b w) u v
  = if (String.eqb a u && String.eqb b v) || (String.eqb a v && String.eqb b u)
    then Some w else Nx.edge_weight G u v.
Proof.
  unfold Nx.add_edge.
  set (G2 := Nx.add_node b (Nx.add_node a G)).
  assert (HG2 : forall x y, Nx.edge_weight G2 x y = Nx.edge_weight G x y)
    by (intros; unfold G2; now rewrite !edge_weight_add_node).
  assert (Ha : exists d, Py.get a G2 = Some d).
  { assert (H : Py.mem a G2 = true) by (apply mem_add_node_mono, mem_add_node).
    unfold Py.mem in H. destruct (Py.get a G2) as [d|]; [now exists d|discriminate]. }
  assert (Hb : exists d, Py.get b G2 = Some d) by apply get_add_node_Some.
  destruct Ha as [da Ha], Hb as [db Hb].
  rewrite <- HG2. unfold Nx.edge_weight. rewrite !get_update.
  destruct (string_dec a u) as [Hau|Hau], (string_dec b u) as [Hbu|Hbu].
  - subst a b. rewrite !String.eqb_refl, Ha. cbn [option_map andb orb].
    rewrite !get_set. now destruct (String.eqb u v).
  - subst a. apply String.eqb_neq in Hbu. rewrite Hbu, String.eqb_refl, Ha.
    cbn [option_map andb orb]. rewrite get_set.
    destruct (String.eqb b v); cbn [orb]; [reflexivity|].
    now rewrite andb_false_r.
  - subst b. apply String.eqb_neq in Hau. rewrite Hau, String.eqb_refl, Hb.
    cbn [option_map andb orb]. rewrite get_set.
    destruct (String.eqb a v); cbn [andb orb]; reflexivity.
  - apply String.eqb_neq in Hau, Hbu. rewrite Hau, Hbu. cbn [andb orb].
    now rewrite andb_false_r.
Qed.

Lemma edge_weight_fold_last rows :
  forall G u v,
    Nx.edge_weight
      (fold_left (fun G (r : record) => let '(p1, p2, score) := r in Nx.add_edge G p1 p2 score)
                 rows G) u v
    = match last_weight rows u v with
      | Some w => Some w
      | None => Nx.edge_weight G u v
      end.
Proof.
  induction rows as [|[[p1 p2] s] t IH]; intros G u v; [reflexivity|].
  cbn [fold_left last_weight]. rewrite IH.
  destruct (last_weight t u v); [reflexivity|].
  rewrite edge_weight_add_edge_any.
  now destruct ((String.eqb p1 u && String.eqb p2 v)
                || (String.eqb p1 v && String.eqb p2 u)).
Qed.

(** X2: last write wins.  In the built graph the pair {u, v} carries the
    score of the last row that joins u and v, in either direction, and no
    edge when no row joins them. *)
Theorem build_graph_last_write_wins :
  forall (rows : list record) (u v : Nx.node),
    Nx.edge_weight (build_graph rows) u v = last_weight rows u v.
Proof.
  intros rows u v. unfold build_graph. rewrite edge_weight_fold_last.
  now destruct (last_weight rows u v).
Qed.

Lemma last_weight_sym rows u v : last_weight rows u v = last_weight rows v u.
Proof.
  induction rows as [|[[p1 p2] s] t IH]; [reflexivity|].
  cbn [last_weight]. rewrite IH. destruct (last_weight t v u); [reflexivity|].
  now rewrite orb_comm.
Qed.

Lemma edge_weight_build_sym rows u v :
  Nx.edge_weight (build_graph rows) u v = Nx.edge_weight (build_graph rows) v u.
Proof.
  unfold build_graph. rewrite !edge_weight_fold_last, last_weight_sym.
  now destruct (last_weight rows v u).
Qed.

Lemma edge_weight_Some_node G u v w :
  Nx.edge_weight G u v = Some w -> In u (Nx.nodes G).
Proof.
  unfold Nx.edge_weight, Nx.nodes. intros H.
  destruct (in_dec string_dec u (Py.keys G)) as [Hin|Hout]; [exact Hin|].
  apply get_None_keys in Hout. rewrite Hout in H. discriminate.
Qed.

Lemma get_In_NoDup {V : Type} (k : string) (v : V) (d : Py.dict V) :
  NoDup (Py.keys d) -> In (k, v) d -> Py.get k d = Some v.
Proof.
  unfold Py.keys. induction d as [|[k' v'] t IH]; intros Hnd Hin; [destruct Hin|].
  simpl in Hnd. inversion Hnd as [|? ? Hnotin Hnd']; subst. simpl.
  destruct Hin as [[= -> ->]|Hin].
  - now rewrite String.eqb_refl.
  - destruct (String.eqb k k') eqn:E; [|now apply IH].
    apply String.eqb_eq in E. subst k'. exfalso. apply Hnotin.
    apply in_map_iff. now exists (k, v).
Qed.

Lemma get_In_Some {V : Type} (k : string) (v : V) (d : Py.dict V) :
  In (k, v) d -> exists v', Py.get k d = Some v'.
Proof.
  intros Hin. destruct (Py.get k d) as [v'|] eqn:E; [now exists v'|].
  apply get_None_keys in E. exfalso. apply E. unfold Py.keys.
  apply in_map_iff. now exists (k, v).
Qed.

(** X1: the built graph is undirected.  Every pair has the same weight in
    both directions, and every neighbour recorded for a node is itself a
    node of the graph. *)
Theorem build_graph_undirected :
  forall (rows : list record),
    (forall u v, Nx.edge_weight (build_graph rows) u v
                 = Nx.edge_weight (build_graph rows) v u)
    /\ Forall (fun na : string * Py.dict Q =>
                 Forall (fun mw : string * Q =>
                           In (fst mw) (Nx.nodes (build_graph rows)))
                        (snd na))
              (build_graph rows).
Proof.
  intros rows. split; [intros; apply edge_weight_build_sym|].
  rewrite Forall_forall. intros [n nbrs] Hn. rewrite Forall_forall.
  intros [m w] Hm. cbn [fst snd] in *.
  pose proof (get_In_NoDup n nbrs (build_graph rows)
                (nodes_build_graph_NoDup rows) Hn) as Hget.
  destruct (get_In_Some m w nbrs Hm) as [w' Hw'].
  assert (E : Nx.edge_weight (build_graph rows) n m = Some w')
    by (unfold Nx.edge_weight; now rewrite Hget).
  rewrite edge_weight_build_sym in E. now apply edge_weight_Some_node with n w'.
Qed.

Lemma keys_add_node_eq n (G : Nx.Graph) :
  Py.keys (Nx.add_node n G)
  = if in_dec string_dec n (Py.keys G) then Py.keys G else Py.keys G ++ [n].
Proof.
  unfold Nx.add_node. destruct (Py.mem n G) eqn:E.
  - apply get_mem_true in E. destruct (in_dec string_dec n (Py.keys G)); tauto.
  - destruct (in_dec string_dec n (Py.keys G)) as [H|H].
    + apply get_mem_true in H. congruence.
    + unfold Py.keys. now rewrite map_app.
Qed.

Lemma first_seen_snoc (l : list string) (n : string) :
  rev (nodup string_dec (rev (l ++ [n])))
  = if in_dec string_dec n (rev (nodup string_dec (rev l)))
    then rev (nodup string_dec (rev l))
    else rev (nodup string_dec (rev l)) ++ [n].
Proof.
  rewrite rev_app_distr. cbn [rev app nodup].
  destruct (in_dec string_dec n (rev l)) as [H|H];
    destruct (in_dec string_dec n (rev (nodup string_dec (rev l)))) as [H'|H'];
    try reflexivity.
  - exfalso. apply H'. apply -> in_rev. now apply nodup_In.
  - exfalso. apply H. apply in_rev in H'. now apply nodup_In in H'.
Qed.

Lemma nodes_build_graph_first_seen rows :
  Nx.nodes (build_graph rows) = rev (nodup string_dec (rev (endpoints rows))).
Proof.
  induction rows as [|[[p1 p2] s] rows IH] using rev_ind; [reflexivity|].
  rewrite build_graph_snoc. unfold endpoints. rewrite flat_map_app.
  cbn [flat_map app]. fold (endpoints rows).
  change (endpoints rows ++ [p1; p2]) with (endpoints rows ++ [p1] ++ [p2]).
  rewrite app_assoc, first_seen_snoc, first_seen_snoc, <- IH.
  unfold Nx.nodes, Nx.add_edge. rewrite !keys_update, !keys_add_node_eq.
  reflexivity.
Qed.

(** X3: the nodes of the built graph are the endpoints of the rows, each
    once, in the order in which the rows first mention them. *)
Theorem build_graph_nodes_are_endpoints :
  forall (rows : list record),
    Nx.nodes (build_graph rows) = rev (nodup string_dec (rev (endpoints rows)))
    /\ NoDup (Nx.nodes (build_graph rows))
    /\ (forall n, In n (Nx.nodes (build_graph rows)) <-> In n (endpoints rows))
    /\ Nx.number_of_nodes (build_graph rows) <= 2 * List.length rows.
Proof.
  intros rows.
  assert (Hin : forall n, In n (Nx.nodes (build_graph rows)) <-> In n (endpoints rows)).
  { intros n. rewrite nodes_build_graph_first_seen, <- in_rev, nodup_In, <- in_rev.
    reflexivity. }
  split; [apply nodes_build_graph_first_seen|].
  split; [apply nodes_build_graph_NoDup|]. split; [exact Hin|].
  assert (Hlen : Nx.number_of_nodes (build_graph rows)
                 = List.length (Nx.nodes (build_graph rows)))
    by (unfold Nx.number_of_nodes, Nx.nodes, Py.keys; now rewrite length_map).
  rewrite Hlen.
  assert (He : List.length (endpoints rows) = 2 * List.length rows).
  { unfold endpoints. clear.
    induction rows as [|[[p1 p2] s] t IH]; [reflexivity|].
    cbn [flat_map List.length app]. rewrite IH. cbn [List.length]. lia. }
  rewrite <- He. apply NoDup_incl_length; [apply nodes_build_graph_NoDup|].
  intros n Hn. now apply Hin.
Qed.

(** * The node -> cluster lookup *)

Lemma contains_In (x : string) (l : list string) :
  Py.contains x l = true <-> In x l.
Proof.
  unfold Py.contains. rewrite existsb_exists. split.
  - intros [y [Hy E]]. apply String.eqb_eq in E. now subst.
  - intros H. exists x. split; [exact H|apply String.eqb_refl].
Qed.

Lemma get_assign_all (cid : nat) (comm : list string) (d : Py.dict nat) (n : string) :
  Py.get n (fold_left (fun d m => Py.set m cid d) comm d)
  = if Py.contains n comm then Some cid else Py.get n d.
Proof.
  revert d. induction comm as [|m t IH]; intros d; [reflexivity|].
  cbn [fold_left]. rewrite IH. unfold Py.contains. cbn [existsb].
  fold (Py.contains n t). destruct (Py.contains n t); [now rewrite orb_true_r|].
  rewrite orb_false_r.
  destruct (String.eqb n m) eqn:E.
  - apply String.eqb_eq in E. subst. apply get_set_same.
  - apply String.eqb_neq in E. apply get_set_other. congruence.
Qed.

Lemma get_node2cluster_from (i : nat) (comms : list (list string)) (d : Py.dict nat)
      (n : string) :
  Py.get n
    (fold_left
       (fun d (ic : nat * list string) =>
          fold_left (fun d m => Py.set m (fst ic) d) (snd ic) d)
       (Py.enumerate_from i comms) d)
  = match last_holder comms n with
    | Some j => Some (i + j)
    | None => Py.get n d
    end.
Proof.
  revert i d. induction comms as [|c t IH]; intros i d; [reflexivity|].
  cbn [Py.enumerate_from fold_left fst snd last_holder]. rewrite IH.
  destruct (last_holder t n) as [j|].
  - f_equal. lia.
  - rewrite get_assign_all. destruct (Py.contains n c); [f_equal; lia|reflexivity].
Qed.

Lemma get_node2cluster (comms : list (list string)) (n : string) :
  Py.get n (node2cluster comms) = last_holder comms n.
Proof.
  unfold node2cluster, Py.enumerate. rewrite get_node2cluster_from.
  now destruct (last_holder comms n).
Qed.

Lemma last_holder_None (comms : list (list string)) (n : string) :
  last_holder comms n = None <-> forall c, In c comms -> ~ In n c.
Proof.
  induction comms as [|c t IH]; cbn [last_holder].
  - split; [intros _ c []|reflexivity].
  - destruct (last_holder t n) as [j|].
    + split; [discriminate|]. intros H. exfalso.
      assert (Hn : Some j = None) by (apply IH; intros c' Hc'; apply H; now right).
      discriminate.
    + destruct (Py.contains n c) eqn:E.
      * split; [discriminate|]. intros H. exfalso.
        apply (H c); [now left|now apply contains_In].
      * split; [|reflexivity]. intros _ c' [<-|Hc'].
        -- intros Hin. apply contains_In in Hin. congruence.
        -- now apply (proj1 IH).
Qed.

Lemma last_holder_Some (comms : list (list string)) (n : string) (j : nat) :
  last_holder comms n = Some j
  <-> (exists c, nth_error comms j = Some c /\ In n c)
      /\ (forall k c', j < k -> nth_error comms k = Some c' -> ~ In n c').
Proof.
  revert j. induction comms as [|c t IH]; intros j; cbn [last_holder].
  - split; [discriminate|]. intros [[c [Hc _]] _]. destruct j; discriminate.
  - destruct (last_holder t n) as [j'|] eqn:El.
    + split.
      * intros [= <-]. destruct (proj1 (IH j') eq_refl) as [Hex Hlater].
        split; [exact Hex|]. intros [|k] c' Hk Hc'; [lia|].
        apply (Hlater k); [lia|exact Hc'].
      * intros [[c0 [Hc0 Hin]] Hlater]. destruct j as [|j].
        -- exfalso. destruct (proj1 (IH j') eq_refl) as [[c1 [Hc1 Hin1]] _].
           apply (Hlater (S j') c1); [lia|exact Hc1|exact Hin1].
        -- f_equal. f_equal.
           assert (Hj : Some j' = Some j); [|now injection Hj].
           apply IH. split; [now exists c0|].
           intros k c' Hk Hc'. apply (Hlater (S k)); [lia|exact Hc'].
    + pose proof (proj1 (last_holder_None t n) El) as Hnone.
      destruct (Py.contains n c) eqn:E.
      * split.
        -- intros [= <-]. split; [exists c; split; [reflexivity|now apply contains_In]|].
           intros [|k] c' Hk Hc'; [lia|]. apply Hnone. eapply nth_error_In. exact Hc'.
        -- intros [[c0 [Hc0 Hin]] _]. destruct j as [|j]; [reflexivity|].
           exfalso. apply (Hnone c0); [eapply nth_error_In; exact Hc0|exact Hin].
      * split; [discriminate|]. intros [[c0 [Hc0 Hin]] _]. destruct j as [|j].
        -- injection Hc0 as <-. apply contains_In in Hin. congruence.
        -- exfalso. apply (Hnone c0); [eapply nth_error_In; exact Hc0|exact Hin].
Qed.

(** X4: the node -> cluster lookup that the scripts rebuild from the
    community list maps a node to the index of the last community that
    holds it (so to its community when the communities are disjoint), and
    has no entry exactly for the nodes that no community holds. *)
Theorem node2cluster_is_last_community :
  forall (comms : list (list Nx.node)) (n : Nx.node),
    (forall cid,
        Py.get n (node2cluster comms) = Some cid
        <-> (exists c, nth_error comms cid = Some c /\ In n c)
            /\ (forall k c', cid < k -> nth_error comms k = Some c' -> ~ In n c'))
    /\ (Py.get n (node2cluster comms) = None
        <-> forall c, In c comms -> ~ In n c).
Proof.
  intros comms n. rewrite get_node2cluster. split.
  - intros cid. apply last_holder_Some.
  - apply last_holder_None.
Qed.

(** * The label vectors of the reproducibility script *)

Lemma all_some_None {A B : Type} (f : A -> option B) (l : list A) :
  Py.all_some (map f l) = None -> exists x, In x l /\ f x = None.
Proof.
  induction l as [|x t IH]; [discriminate|]. cbn [map Py.all_some].
  destruct (f x) eqn:E.
  - destruct (Py.all_some (map f t)); [discriminate|].
    intros _. destruct (IH eq_refl) as [y [Hy Hf]]. exists y. split; [now right|exact Hf].
  - intros _. exists x. split; [now left|exact E].
Qed.

Lemma Forall2_length_eq {A B : Type} (R : A -> B -> Prop) (l : list A) (l' : list B) :
  Forall2 R l l' -> List.length l' = List.length l.
Proof. induction 1; simpl; congruence. Qed.

Lemma communities_to_labels_labels_or_raises_aux :
  forall (comms : list (list Nx.node)) (nodes : list Nx.node),
    match Reproducibility.communities_to_labels comms nodes with
    | Some labels =>
        List.length labels = List.length nodes
        /\ Forall2 (fun n l => exists c, nth_error comms l = Some c /\ In n c)
                   nodes labels
        /\ Forall (fun l => l < List.length comms) labels
    | None => exists n, In n nodes /\ forall c, In c comms -> ~ In n c
    end.
Proof.
  intros comms nodes. unfold Reproducibility.communities_to_labels.
  destruct (Py.all_some _) as [labels|] eqn:E.
  - apply all_some_Forall2 in E.
    assert (HF : Forall2 (fun n l => exists c, nth_error comms l = Some c /\ In n c)
                         nodes labels).
    { eapply Forall2_impl; [|exact E]. intros n l Hl. cbv beta in Hl.
      rewrite get_node2cluster in Hl. now apply last_holder_Some in Hl. }
    split; [now apply Forall2_length_eq in E|]. split; [exact HF|].
    clear E. induction HF as [|n l ns ls [c [Hc _]] _ IH]; constructor; [|exact IH].
    apply nth_error_Some. congruence.
  - apply all_some_None in E. destruct E as [n [Hn Hget]].
    exists n. split; [exact Hn|].
    rewrite get_node2cluster in Hget. now apply last_holder_None.
Qed.

(** X5: [communities_to_labels] either returns one label per node of the
    node list, in the same order, each label being the index of a
    community that holds its node, or raises (the KeyError on
    [node2label[n]]) and then some node of the list is in no community. *)
Theorem communities_to_labels_labels_or_raises :
  forall (comms : list (list Nx.node)) (nodes : list Nx.node),
    match Reproducibility.communities_to_labels comms nodes with
    | Some labels =>
        List.length labels = List.length nodes
        /\ Forall2 (fun n l => exists c, nth_error comms l = Some c /\ In n c)
                   nodes labels
        /\ Forall (fun l => l < List.length comms) labels
    | None => exists n, In n nodes /\ forall c, In c comms -> ~ In n c
    end.
Proof. exact communities_to_labels_labels_or_raises_aux. Qed.

(** * The ranks of [get_ranks] *)

Lemma set_new {V : Type} (k : string) (v : V) (d : Py.dict V) :
  ~ In k (Py.keys d) -> Py.set k v d = d ++ [(k, v)].
Proof.
  unfold Py.keys. induction d as [|[k' v'] t IH]; intros Hk; [reflexivity|].
  simpl in *. destruct (String.eqb k k') eqn:E.
  - apply String.eqb_eq in E. subst. tauto.
  - rewrite IH; [reflexivity|tauto].
Qed.

Lemma of_items_from_NoDup {V : Type} (items : list (string * V)) (d : Py.dict V) :
  NoDup (Py.keys d ++ map fst items) ->
  fold_left (fun d kv => Py.set (fst kv) (snd kv) d) items d = d ++ items.
Proof.
  revert d. induction items as [|[k v] t IH]; intros d Hnd.
  - now rewrite app_nil_r.
  - cbn [fold_left fst snd map] in *.
    assert (Hk : ~ In k (Py.keys d)).
    { apply NoDup_remove_2 in Hnd. intros H. apply Hnd. apply in_or_app. now left. }
    rewrite (set_new k v d Hk). rewrite IH.
    + now rewrite <- app_assoc.
    + unfold Py.keys in *. rewrite map_app. cbn [map fst]. now rewrite <- app_assoc.
Qed.

Lemma of_items_NoDup {V : Type} (items : list (string * V)) :
  NoDup (map fst items) -> Py.of_items items = items.
Proof.
  intros Hnd. unfold Py.of_items. now rewrite of_items_from_NoDup.
Qed.

Lemma enumerate_from_ranks {V : Type} (i : nat) (l : list (string * V)) :
  map snd (map (fun ri : nat * (string * V) => (fst (snd ri), fst ri + 1))
               (Py.enumerate_from i l))
  = seq (i + 1) (List.length l).
Proof.
  revert i. induction l as [|x t IH]; intros i; [reflexivity|].
  cbn [Py.enumerate_from map fst snd List.length seq]. f_equal.
  rewrite IH. f_equal.
Qed.

Lemma enumerate_from_In {A : Type} (j i : nat) (x : A) (l : list A) :
  In (i, x) (Py.enumerate_from j l) -> j <= i /\ nth_error l (i - j) = Some x.
Proof.
  revert j. induction l as [|y t IH]; intros j; [intros []|].
  cbn [Py.enumerate_from]. intros [[= <- <-]|H].
  - split; [lia|]. now rewrite Nat.sub_diag.
  - destruct (IH (S j) H) as [Hle Hn]. split; [lia|].
    replace (i - j) with (S (i - S j)) by lia. exact Hn.
Qed.

Lemma get_ranks_list {V : Type} (le : V -> V -> bool) (metric_dict : Py.dict V)
      (ascending : bool) :
  NoDup (Py.keys metric_dict) ->
  BottleneckAnalysis.get_ranks le metric_dict ascending
  = map (fun ri : nat * (string * V) => (fst (snd ri), fst ri + 1))
        (Py.enumerate
           (Py.sorted (fun a b : string * V =>
                         if ascending then le (snd a) (snd b) else le (snd b) (snd a))
                      metric_dict)).
Proof.
  intros Hnd. unfold BottleneckAnalysis.get_ranks.
  apply of_items_NoDup. unfold Py.enumerate. rewrite enumerate_from_names.
  eapply Permutation_NoDup; [|exact Hnd].
  unfold Py.keys. apply Permutation_map. symmetry. apply sorted_perm.
Qed.

Lemma get_ranks_uses_each_rank_once_aux :
  forall (V : Type) (le : V -> V -> bool) (metric_dict : Py.dict V) (ascending : bool),
    NoDup (Py.keys metric_dict) ->
    Permutation (Py.keys (BottleneckAnalysis.get_ranks le metric_dict ascending))
                (Py.keys metric_dict)
    /\ map snd (BottleneckAnalysis.get_ranks le metric_dict ascending)
       = seq 1 (List.length metric_dict).
Proof.
  intros V le d asc Hnd. rewrite (get_ranks_list le d asc Hnd). split.
  - unfold Py.keys at 1, Py.enumerate. rewrite enumerate_from_names.
    unfold Py.keys. apply Permutation_map, sorted_perm.
  - unfold Py.enumerate. rewrite enumerate_from_ranks, sorted_length. reflexivity.
Qed.

(** X6: on a dictionary of n entries, [get_ranks] gives every key one rank
    and uses each of the ranks 1, 2, ..., n once, whatever the values and
    the direction are. *)
Theorem get_ranks_uses_each_rank_once :
  forall (V : Type) (le : V -> V -> bool) (metric_dict : Py.dict V) (ascending : bool),
    NoDup (Py.keys metric_dict) ->
    Permutation (Py.keys (BottleneckAnalysis.get_ranks le metric_dict ascending))
                (Py.keys metric_dict)
    /\ map snd (BottleneckAnalysis.get_ranks le metric_dict ascending)
       = seq 1 (List.length metric_dict).
Proof. exact get_ranks_uses_each_rank_once_aux. Qed.

Lemma get_ranks_uses_each_rank_once_witness :
  NoDup (Py.keys [("A", 0%Q); ("B", (2 # 3)%Q); ("C", (1 # 3)%Q)])
  /\ BottleneckAnalysis.get_ranks Qle_bool
       [("A", 0%Q); ("B", (2 # 3)%Q); ("C", (1 # 3)%Q)] false
     = [("B", 1); ("C", 2); ("A", 3)]
  /\ map snd (BottleneckAnalysis.get_ranks Qle_bool
                [("A", 0%Q); ("B", (2 # 3)%Q); ("C", (1 # 3)%Q)] false)
     = seq 1 3.
Proof.
  assert (Hnd : NoDup (Py.keys [("A", 0%Q); ("B", (2 # 3)%Q); ("C", (1 # 3)%Q)])).
  { repeat constructor; simpl; intuition discriminate. }
  split; [exact Hnd|]. split; [reflexivity|].
  exact (proj2 (get_ranks_uses_each_rank_once Q Qle_bool _ false Hnd)).
Defined.








(** * The size of the rank table of 04_target_bottleneck.py *)

Lemma get_of_items_from {V : Type} (items : list (string * V)) (d : Py.dict V)
      (k : string) (v : V) :
  Py.get k (fold_left (fun d kv => Py.set (fst kv) (snd kv) d) items d) = Some v ->
  In (k, v) items \/ Py.get k d = Some v.
Proof.
  revert d. induction items as [|[k' v'] t IH]; intros d H; [now right|].
  cbn [fold_left fst snd] in H. destruct (IH _ H) as [Hin|Hget].
  - left. now right.
  - destruct (string_dec k' k) as [->|Hne].
    + rewrite get_set_same in Hget. injection Hget as ->. left. now left.
    + rewrite get_set_other in Hget by exact Hne. now right.
Qed.

Lemma rank_lookup_bound {V : Type} (window : list (string * V)) (p : string) (r : nat) :
  Py.get p (TargetBottleneck.rank_lookup window) = Some r ->
  1 <= r <= List.length window.
Proof.
  unfold TargetBottleneck.rank_lookup, Py.of_items. intros H.
  apply get_of_items_from in H. destruct H as [H|H]; [|discriminate].
  apply in_map_iff in H. destruct H as [[i item] [[= _ <-] Hin]].
  apply enumerate_from_In in Hin. destruct Hin as [_ Hn]. cbn [fst].
  assert (i - 0 < List.length window) by (apply nth_error_Some; congruence).
  lia.
Qed.

Lemma top_window_length {V : Type} (before : V -> V -> bool) (N : nat) (d : Py.dict V) :
  List.length (TargetBottleneck.top_window before N d) <= N.
Proof. unfold TargetBottleneck.top_window. apply firstn_le_length. Qed.

Lemma rank_default_bound {V : Type} (before : V -> V -> bool) (N : nat) (d : Py.dict V)
      (p : string) :
  1 <= Py.get_default p (N + 1)
         (TargetBottleneck.rank_lookup (TargetBottleneck.top_window before N d))
    <= N + 1
  /\ (In p (Py.keys (TargetBottleneck.rank_lookup (TargetBottleneck.top_window before N d))) ->
      Py.get_default p (N + 1)
        (TargetBottleneck.rank_lookup (TargetBottleneck.top_window before N d)) <= N).
Proof.
  unfold Py.get_default.
  pose proof (top_window_length before N d) as Hlen.
  destruct (Py.get p _) as [r|] eqn:E.
  - apply rank_lookup_bound in E. split; [lia|]. intros _. lia.
  - split; [lia|]. intros Hin. apply get_None_keys in E. contradiction.
Qed.

Lemma keys_rank_lookup_length {V : Type} (window : list (string * V)) (x : string) :
  In x (Py.keys (TargetBottleneck.rank_lookup window)) -> In x (map fst window).
Proof.
  unfold TargetBottleneck.rank_lookup. rewrite keys_of_items.
  unfold Py.enumerate. now rewrite enumerate_from_names.
Qed.

(** X8: the rank table of the top-N script is bounded by the window size.
    It has at most 3 N rows; every rank in it lies between 1 and N + 1;
    every row is within the top N of at least one metric; and every
    aggregate score lies between 3 and 3 N + 2. *)
Theorem top_n_table_bounds :
  forall (S : set_order) (N : nat)
         (bc_scores : Py.dict Q) (deg_scores : Py.dict nat) (clust_scores : Py.dict Q),
    let table := TargetBottleneck.combined_results S N bc_scores deg_scores clust_scores in
    List.length table <= 3 * N
    /\ Forall (fun r =>
                 1 <= TargetBottleneck.BC_Rank r <= N + 1
                 /\ 1 <= TargetBottleneck.Deg_Rank r <= N + 1
                 /\ 1 <= TargetBottleneck.Clust_Rank r <= N + 1
                 /\ (TargetBottleneck.BC_Rank r <= N
                     \/ TargetBottleneck.Deg_Rank r <= N
                     \/ TargetBottleneck.Clust_Rank r <= N)
                 /\ 3 <= TargetBottleneck.Total_Score r <= 3 * N + 2)
              table.
Proof.
  intros S N bc deg clust table. unfold table, TargetBottleneck.combined_results.
  split.
  - rewrite sorted_length. unfold TargetBottleneck.unsorted_results. rewrite length_map.
    unfold TargetBottleneck.unique_proteins.
    pose proof (top_window_length TargetBottleneck.descending N bc) as H1.
    pose proof (top_window_length TargetBottleneck.descending_nat N deg) as H2.
    pose proof (top_window_length TargetBottleneck.ascending N clust) as H3.
    fold (TargetBottleneck.sorted_bc N bc) in H1.
    fold (TargetBottleneck.sorted_deg N deg) in H2.
    fold (TargetBottleneck.sorted_clust N clust) in H3.
    apply Nat.le_trans
      with (List.length (map fst (TargetBottleneck.sorted_bc N bc)
                         ++ map fst (TargetBottleneck.sorted_deg N deg)
                         ++ map fst (TargetBottleneck.sorted_clust N clust))).
    + apply NoDup_incl_length; [apply iter_NoDup|]. intros x Hx.
      apply iter_In in Hx. apply in_app_or in Hx. apply in_or_app.
      destruct Hx as [Hx|Hx]; [left; now apply keys_rank_lookup_length|right].
      apply in_app_or in Hx. apply in_or_app.
      destruct Hx as [Hx|Hx]; [left|right]; now apply keys_rank_lookup_length.
    + rewrite !length_app, !length_map. lia.
  - eapply Permutation_Forall; [symmetry; apply sorted_perm|].
    unfold TargetBottleneck.unsorted_results. rewrite Forall_map.
    rewrite Forall_forall. intros p Hp.
    unfold TargetBottleneck.unique_proteins in Hp. apply iter_In in Hp.
    unfold TargetBottleneck.combined_row.
    cbn [TargetBottleneck.BC_Rank TargetBottleneck.Deg_Rank
         TargetBottleneck.Clust_Rank TargetBottleneck.Total_Score].
    unfold TargetBottleneck.bc_ranks, TargetBottleneck.deg_ranks,
      TargetBottleneck.clust_ranks, TargetBottleneck.sorted_bc,
      TargetBottleneck.sorted_deg, TargetBottleneck.sorted_clust in *.
    destruct (rank_default_bound TargetBottleneck.descending N bc p) as [B1 B1'].
    destruct (rank_default_bound TargetBottleneck.descending_nat N deg p) as [B2 B2'].
    destruct (rank_default_bound TargetBottleneck.ascending N clust p) as [B3 B3'].
    assert (Hone : Py.get_default p (N + 1)
                     (TargetBottleneck.rank_lookup
                        (TargetBottleneck.top_window TargetBottleneck.descending N bc)) <= N
                   \/ Py.get_default p (N + 1)
                        (TargetBottleneck.rank_lookup
                           (TargetBottleneck.top_window TargetBottleneck.descending_nat N deg)) <= N
                   \/ Py.get_default p (N + 1)
                        (TargetBottleneck.rank_lookup
                           (TargetBottleneck.top_window TargetBottleneck.ascending N clust)) <= N).
    { apply in_app_or in Hp. destruct Hp as [Hp|Hp]; [left; now apply B1'|].
      apply in_app_or in Hp. destruct Hp as [Hp|Hp]; [right; left|right; right]; auto. }
    repeat split; lia.
Qed.

(** * The Markov-clustering script: matrix and index lookup *)




Lemma matrix_entry (G : Nx.Graph) (nodelist : list string) (i j : nat) :
  nth j (nth i (MarkovClust.to_scipy_sparse_array G nodelist) []) 0%Q
  = if (i <? List.length nodelist) && (j <? List.length nodelist)
    then match Nx.edge_weight G (nth i nodelist "") (nth j nodelist "") with
         | Some w => w
         | None => 0%Q
         end
    else 0%Q.
Proof.
  unfold MarkovClust.to_scipy_sparse_array.
  destruct (i <? List.length nodelist) eqn:Ei.
  - apply Nat.ltb_lt in Ei.
    rewrite (nth_indep _ []
               ((fun u => map (fun v => match Nx.edge_weight G u v with
                                       | Some w => w | None => 0%Q end) nodelist) ""))
      by (now rewrite length_map).
    rewrite (map_nth (fun u => map (fun v => match Nx.edge_weight G u v with
                                            | Some w => w | None => 0%Q end) nodelist)).
    destruct (j <? List.length nodelist) eqn:Ej; cbn [andb].
    + apply Nat.ltb_lt in Ej.
      rewrite (nth_indep _ 0%Q
                 ((fun v => match Nx.edge_weight G (nth i nodelist "") v with
                            | Some w => w | None => 0%Q end) ""))
        by (now rewrite length_map).
      now rewrite (map_nth (fun v => match Nx.edge_weight G (nth i nodelist "") v with
                                     | Some w => w | None => 0%Q end)).
    + apply Nat.ltb_ge in Ej. apply nth_overflow. now rewrite length_map.
  - apply Nat.ltb_ge in Ei. cbn [andb].
    rewrite (nth_overflow _ [] (n := i)) by (now rewrite length_map).
    now destruct j.
Qed.

(** X10: the matrix that the Markov-clustering scripts hand to the library
    is square, with one row and one column per node of the graph, and
    symmetric. *)
Theorem mcl_matrix_square_symmetric :
  forall (rows : list record),
    let G := build_graph rows in
    let M := MarkovClust.to_scipy_sparse_array G (Nx.nodes G) in
    List.length M = Nx.number_of_nodes G
    /\ Forall (fun row => List.length row = Nx.number_of_nodes G) M
    /\ (forall i j, nth j (nth i M []) 0%Q = nth i (nth j M []) 0%Q).
Proof.
  intros rows G M.
  assert (Hn : List.length (Nx.nodes G) = Nx.number_of_nodes G)
    by (unfold Nx.number_of_nodes, Nx.nodes, Py.keys; now rewrite length_map).
  split; [|split].
  - unfold M, MarkovClust.to_scipy_sparse_array. now rewrite length_map.
  - unfold M, MarkovClust.to_scipy_sparse_array. rewrite Forall_map.
    rewrite Forall_forall. intros u _. now rewrite length_map.
  - intros i j. unfold M. rewrite !matrix_entry.
    rewrite (andb_comm (j <? _)). destruct ((i <? _) && (j <? _)); [|reflexivity].
    unfold G. now rewrite edge_weight_build_sym.
Qed.

(** * The result rows of the CSV script *)

Lemma StronglySorted_app {A : Type} (R : A -> A -> Prop) (l1 l2 : list A) :
  StronglySorted R l1 -> StronglySorted R l2 ->
  (forall a b, In a l1 -> In b l2 -> R a b) ->
  StronglySorted R (l1 ++ l2).
Proof.
  induction 1 as [|x t Hs IH Hall]; intros H2 Hcross; [exact H2|].
  cbn [app]. constructor.
  - apply IH; [exact H2|]. intros a b Ha Hb. apply Hcross; [now right|exact Hb].
  - apply Forall_app. split; [exact Hall|].
    rewrite Forall_forall. intros b Hb. apply Hcross; [now left|exact Hb].
Qed.

Lemma cluster_rows_In (cid : nat) (members : list string) (r : MarkovClustCsv.csv_row) :
  In r (MarkovClustCsv.cluster_rows cid members) ->
  MarkovClustCsv.Cluster_ID r = cid + 1
  /\ MarkovClustCsv.Cluster_Size r = List.length members
  /\ In (MarkovClustCsv.Protein r) members.
Proof.
  unfold MarkovClustCsv.cluster_rows. intros H. apply in_map_iff in H.
  destruct H as [m [<- Hm]]. cbn. auto.
Qed.

Lemma rows_from_In (i : nat) (groups : list (list string)) (r : MarkovClustCsv.csv_row) :
  In r (flat_map (fun ic : nat * list string =>
                    MarkovClustCsv.cluster_rows (fst ic) (snd ic))
                 (Py.enumerate_from i groups)) ->
  exists j m, i <= j /\ nth_error groups (j - i) = Some m
              /\ In r (MarkovClustCsv.cluster_rows j m).
Proof.
  intros H. apply in_flat_map in H. destruct H as [[j m] [Hjm Hr]].
  apply enumerate_from_In in Hjm. destruct Hjm as [Hle Hn].
  exists j, m. auto.
Qed.

Lemma rows_from_filter (i k : nat) (groups : list (list string)) :
  filter (fun r => MarkovClustCsv.Cluster_ID r =? k + 1)
         (flat_map (fun ic : nat * list string =>
                      MarkovClustCsv.cluster_rows (fst ic) (snd ic))
                   (Py.enumerate_from i groups))
  = if i <=? k
    then match nth_error groups (k - i) with
         | Some m => MarkovClustCsv.cluster_rows k m
         | None => []
         end
    else [].
Proof.
  assert (Hsame : forall j m,
    filter (fun r => MarkovClustCsv.Cluster_ID r =? k + 1)
           (MarkovClustCsv.cluster_rows j m)
    = if j =? k then MarkovClustCsv.cluster_rows j m else []).
  { intros j m. unfold MarkovClustCsv.cluster_rows.
    generalize (List.length m) as size. intros size.
    induction m as [|x t IH]; [now destruct (j =? k)|].
    cbn [map filter MarkovClustCsv.Cluster_ID].
    rewrite IH. destruct (j =? k) eqn:E.
    - apply Nat.eqb_eq in E. subst. now rewrite Nat.eqb_refl.
    - apply Nat.eqb_neq in E.
      destruct (j + 1 =? k + 1) eqn:E'; [apply Nat.eqb_eq in E'; lia|reflexivity]. }
  revert i. induction groups as [|m t IH]; intros i.
  - cbn. destruct (i <=? k); [now destruct (k - i)|reflexivity].
  - cbn [Py.enumerate_from flat_map fst snd]. rewrite filter_app, Hsame, IH.
    destruct (i =? k) eqn:E.
    + apply Nat.eqb_eq in E. subst i.
      rewrite Nat.leb_refl, Nat.sub_diag. cbn [nth_error].
      destruct (S k <=? k) eqn:E'; [apply Nat.leb_le in E'; lia|].
      now rewrite app_nil_r.
    + apply Nat.eqb_neq in E. cbn [app].
      destruct (Nat.lt_ge_cases k i) as [Hlt|Hge].
      * assert (E1 : (i <=? k) = false) by (apply Nat.leb_gt; lia).
        assert (E2 : (S i <=? k) = false) by (apply Nat.leb_gt; lia).
        now rewrite E1, E2.
      * assert (E1 : (i <=? k) = true) by (apply Nat.leb_le; lia).
        assert (E2 : (S i <=? k) = true) by (apply Nat.leb_le; lia).
        rewrite E1, E2. replace (k - i) with (S (k - S i)) by lia. reflexivity.
Qed.

Lemma rows_from_sorted (i : nat) (groups : list (list string)) :
  StronglySorted (fun a b : list string => List.length b <= List.length a) groups ->
  StronglySorted
    (fun a b => MarkovClustCsv.Cluster_ID a <= MarkovClustCsv.Cluster_ID b
                /\ MarkovClustCsv.Cluster_Size b <= MarkovClustCsv.Cluster_Size a)
    (flat_map (fun ic : nat * list string =>
                 MarkovClustCsv.cluster_rows (fst ic) (snd ic))
              (Py.enumerate_from i groups)).
Proof.
  intros Hs. revert i. induction Hs as [|m t Hs IH Hall]; intros i; [constructor|].
  cbn [Py.enumerate_from flat_map fst snd]. apply StronglySorted_app.
  - unfold MarkovClustCsv.cluster_rows.
    assert (H : forall l : list string,
      StronglySorted
        (fun a b => MarkovClustCsv.Cluster_ID a <= MarkovClustCsv.Cluster_ID b
                    /\ MarkovClustCsv.Cluster_Size b <= MarkovClustCsv.Cluster_Size a)
        (map (fun member =>
                {| MarkovClustCsv.Protein := member;
                   MarkovClustCsv.Cluster_ID := i + 1;
                   MarkovClustCsv.Cluster_Size := List.length m |}) l)).
    { induction l as [|x l IHl]; [constructor|]. cbn [map]. constructor; [exact IHl|].
      rewrite Forall_map, Forall_forall. intros y _. cbn. lia. }
    apply H.
  - apply IH.
  - intros a b Ha Hb. apply cluster_rows_In in Ha. destruct Ha as [Ha1 [Ha2 _]].
    apply rows_from_In in Hb. destruct Hb as [j [m' [Hj [Hm' Hb]]]].
    apply cluster_rows_In in Hb. destruct Hb as [Hb1 [Hb2 _]].
    rewrite Ha1, Ha2, Hb1, Hb2. split; [lia|].
    rewrite Forall_forall in Hall. apply Hall. eapply nth_error_In. exact Hm'.
Qed.

(** X11: in the CSV script's result rows every cluster id is 1-based and
    at most the number of clusters, the Cluster_Size of a row is the number
    of rows that carry its Cluster_ID, and down the table the cluster ids
    never decrease while the cluster sizes never increase. *)
Theorem csv_rows_consistent :
  forall (mcl : list (list Q) -> list (list nat)) (df : list record),
    match MarkovClustCsv.run_large_scale_clustering mcl df with
    | Some (community_groups, rows) =>
        Forall (fun r =>
                  1 <= MarkovClustCsv.Cluster_ID r <= List.length community_groups
                  /\ MarkovClustCsv.Cluster_Size r
                     = List.length
                         (filter (fun r' => MarkovClustCsv.Cluster_ID r'
                                            =? MarkovClustCsv.Cluster_ID r) rows))
               rows
        /\ StronglySorted
             (fun a b => MarkovClustCsv.Cluster_ID a <= MarkovClustCsv.Cluster_ID b
                         /\ MarkovClustCsv.Cluster_Size b <= MarkovClustCsv.Cluster_Size a)
             rows
    | None => True
    end.
Proof.
  intros mcl df. unfold MarkovClustCsv.run_large_scale_clustering.
  set (G := build_graph (MarkovClust.normalize df)).
  set (raw := mcl (MarkovClust.to_scipy_sparse_array G (Nx.nodes G))).
  destruct (Py.all_some _) as [groups|] eqn:E; [|exact I].
  apply all_some_Forall2 in E. split.
  - rewrite Forall_forall. intros r Hr. unfold Py.enumerate in *.
    destruct (rows_from_In 0 groups r Hr) as [j [m [_ [Hm Hin]]]].
    rewrite Nat.sub_0_r in Hm.
    apply cluster_rows_In in Hin. destruct Hin as [Hid [Hsize _]].
    assert (Hj : j < List.length groups) by (apply nth_error_Some; congruence).
    split; [lia|]. rewrite Hid, rows_from_filter. cbn [Nat.leb].
    rewrite Nat.sub_0_r, Hm. unfold MarkovClustCsv.cluster_rows.
    now rewrite length_map.
  - unfold Py.enumerate. apply rows_from_sorted.
    assert (Hlen : map (@List.length string) groups
                   = map (@List.length nat) (MarkovClust.sort_by_size raw)).
    { clear -E. induction E as [|c m cs ms Hcm _ IH]; simpl; [reflexivity|].
      rewrite IH. f_equal. now apply names_of_length with (nodes_list := Nx.nodes G). }
    pose proof (sort_by_size_sorted raw) as Hs.
    apply (StronglySorted_map (@List.length nat) (fun x y => (y <=? x) = true)) in Hs.
    rewrite <- Hlen in Hs.
    clear -Hs. induction groups as [|m t IH]; [constructor|].
    cbn [map] in Hs. inversion Hs as [|? ? Hs' Hall]; subst.
    constructor; [now apply IH|].
    rewrite Forall_map in Hall. eapply Forall_impl; [|exact Hall].
    intros a Ha. cbv beta in Ha. now apply Nat.leb_le.
Qed.

(** * The protein list of a cluster *)

Lemma ascii_compare_trans_lt (a b c : ascii) :
  Ascii.compare a b = Lt -> Ascii.compare b c = Lt -> Ascii.compare a c = Lt.
Proof.
  unfold Ascii.compare. rewrite !N.compare_lt_iff. apply N.lt_trans.
Qed.

Lemma string_compare_trans_lt (s1 : string) :
  forall s2 s3, String.compare s1 s2 = Lt -> String.compare s2 s3 = Lt ->
                String.compare s1 s3 = Lt.
Proof.
  induction s1 as [|c1 t1 IH]; intros [|c2 t2] [|c3 t3] H12 H23;
    cbn [String.compare] in *; try discriminate; try reflexivity.
  destruct (Ascii.compare c1 c2) eqn:E12; try discriminate;
    destruct (Ascii.compare c2 c3) eqn:E23; try discriminate.
  - apply Ascii.compare_eq_iff in E12, E23. subst.
    assert (E : Ascii.compare c3 c3 = Eq)
      by (unfold Ascii.compare; apply N.compare_refl).
    rewrite E. now apply IH with t2.
  - apply Ascii.compare_eq_iff in E12. subst. now rewrite E23.
  - apply Ascii.compare_eq_iff in E23. subst. now rewrite E12.
  - now rewrite (ascii_compare_trans_lt c1 c2 c3 E12 E23).
Qed.

Lemma string_compare_refl (s : string) : String.compare s s = Eq.
Proof.
  induction s as [|c t IH]; [reflexivity|]. cbn [String.compare].
  assert (E : Ascii.compare c c = Eq) by (unfold Ascii.compare; apply N.compare_refl).
  now rewrite E.
Qed.

Lemma string_leb_trans (s1 s2 s3 : string) :
  String.leb s1 s2 = true -> String.leb s2 s3 = true -> String.leb s1 s3 = true.
Proof.
  unfold String.leb.
  destruct (String.compare s1 s2) eqn:E12; try discriminate;
    destruct (String.compare s2 s3) eqn:E23; try discriminate; intros _ _.
  - apply String.compare_eq_iff in E12, E23. subst. now rewrite string_compare_refl.
  - apply String.compare_eq_iff in E12. subst. now rewrite E23.
  - apply String.compare_eq_iff in E23. subst. now rewrite E12.
  - now rewrite (string_compare_trans_lt s1 s2 s3 E12 E23).
Qed.

Lemma sorted_strings_sorted (l : list string) :
  StronglySorted (fun a b => String.leb a b = true) (Py.sorted String.leb l).
Proof.
  apply (sorted_sorted String.leb).
  - apply String.leb_total.
  - apply string_leb_trans.
Qed.

Lemma sorted_perm_unique (l1 : list string) :
  forall l2,
    StronglySorted (fun a b => String.leb a b = true) l1 ->
    StronglySorted (fun a b => String.leb a b = true) l2 ->
    Permutation l1 l2 -> l1 = l2.
Proof.
  induction l1 as [|x t1 IH]; intros l2 H1 H2 Hp.
  - apply Permutation_nil in Hp. now subst.
  - destruct l2 as [|y t2]; [symmetry in Hp; now apply Permutation_nil in Hp|].
    inversion H1 as [|? ? Hs1 Hall1]; subst.
    inversion H2 as [|? ? Hs2 Hall2]; subst.
    rewrite Forall_forall in Hall1, Hall2.
    assert (Hxy : x = y).
    { assert (Hx : In x (y :: t2)) by (eapply Permutation_in; [exact Hp|now left]).
      assert (Hy : In y (x :: t1))
        by (eapply Permutation_in; [symmetry; exact Hp|now left]).
      destruct Hx as [->|Hx]; [reflexivity|].
      destruct Hy as [->|Hy]; [reflexivity|].
      apply String.leb_antisym; [now apply Hall1|now apply Hall2]. }
    subst y. f_equal. apply IH; [exact Hs1|exact Hs2|].
    now apply Permutation_cons_inv with x.
Qed.

Lemma sorted_strings_order_free (c1 c2 : list string) :
  Permutation c1 c2 -> Py.sorted String.leb c1 = Py.sorted String.leb c2.
Proof.
  intros Hp. apply sorted_perm_unique; try apply sorted_strings_sorted.
  rewrite !sorted_perm. exact Hp.
Qed.

(** X12: for a cluster id that is an index of the community list,
    [get_proteins_in_cluster] returns the proteins of that community in
    ascending order, each once per occurrence, and writes exactly these
    lines to the output file. *)
Theorem get_proteins_in_cluster_sorted :
  forall (join : string -> string -> string) (pickle_path : string) (cluster_id : Z)
         (output_filename output_dir : string) (data : bundle),
    (0 <= cluster_id < Z.of_nat (List.length (communities data)))%Z ->
    exists protein_list printed,
      ClusterOverview.get_proteins_in_cluster join pickle_path cluster_id
        output_filename output_dir (BottleneckAnalysis.Pickled data)
      = ClusterOverview.Returns (Some protein_list) printed
          [(output_dir, output_filename, protein_list)]
      /\ StronglySorted (fun a b => String.leb a b = true) protein_list
      /\ Permutation protein_list
                     (nth (Z.to_nat cluster_id) (communities data) []).
Proof.
  intros join path cid fname dir data [H0 Hlen].
  unfold ClusterOverview.get_proteins_in_cluster.
  cbn [ClusterOverview._load_pickle_data ClusterOverview.truthy].
  assert (E1 : (cid <? 0)%Z = false) by (apply Z.ltb_ge; lia).
  assert (E2 : (Z.of_nat (List.length (communities data)) <=? cid)%Z = false)
    by (apply Z.leb_gt; lia).
  rewrite E1, E2. cbn [orb].
  eexists. eexists. split; [reflexivity|]. split.
  - apply sorted_strings_sorted.
  - apply sorted_perm.
Qed.

Lemma get_proteins_in_cluster_sorted_witness :
  (0 <= 0 < Z.of_nat (List.length (communities path_data)))%Z
  /\ exists printed,
       ClusterOverview.get_proteins_in_cluster (fun d f => (d ++ "/" ++ f)%string)
         "louvain.pkl" 0 "cluster_0.txt" "data/output"
         (BottleneckAnalysis.Pickled
            {| graph := graph path_data; communities := [["D"; "B"; "A"; "C"]] |})
       = ClusterOverview.Returns (Some ["A"; "B"; "C"; "D"]) printed
           [("data/output", "cluster_0.txt", ["A"; "B"; "C"; "D"])].
Proof.
  split; [split; [apply Z.le_refl|reflexivity]|].
  destruct (get_proteins_in_cluster_sorted (fun d f => (d ++ "/" ++ f)%string)
              "louvain.pkl" 0 "cluster_0.txt" "data/output"
              {| graph := graph path_data; communities := [["D"; "B"; "A"; "C"]] |})
    as [l [printed [Heq _]]].
  - split; [apply Z.le_refl|reflexivity].
  - exists printed. rewrite Heq. vm_compute in Heq.
    injection Heq as <- _. reflexivity.
Defined.

(** X13: the outcome of [get_proteins_in_cluster] does not depend on the
    order in which the community sets iterate: two pickles whose
    communities hold the same proteins give the same returned list, the
    same printed lines and the same file. *)
Theorem get_proteins_in_cluster_order_free :
  forall (join : string -> string -> string) (pickle_path : string) (cluster_id : Z)
         (output_filename output_dir : string) (data1 data2 : bundle),
    Forall2 (@Permutation string) (communities data1) (communities data2) ->
    ClusterOverview.get_proteins_in_cluster join pickle_path cluster_id
      output_filename output_dir (BottleneckAnalysis.Pickled data1)
    = ClusterOverview.get_proteins_in_cluster join pickle_path cluster_id
        output_filename output_dir (BottleneckAnalysis.Pickled data2).
Proof.
  intros join path cid fname dir data1 data2 HF.
  unfold ClusterOverview.get_proteins_in_cluster.
  cbn [ClusterOverview._load_pickle_data ClusterOverview.truthy].
  assert (Hlen : List.length (communities data1) = List.length (communities data2)).
  { clear -HF. induction HF; simpl; congruence. }
  rewrite Hlen.
  destruct ((cid <? 0)%Z || (Z.of_nat (List.length (communities data2)) <=? cid)%Z);
    [reflexivity|].
  assert (Hs : Py.sorted String.leb (nth (Z.to_nat cid) (communities data1) [])
               = Py.sorted String.leb (nth (Z.to_nat cid) (communities data2) [])).
  { apply sorted_strings_order_free. clear Hlen. revert HF.
    generalize (Z.to_nat cid) as k. generalize (communities data1) as l1.
    generalize (communities data2) as l2. intros l2 l1 k HF. revert k.
    induction HF as [|c1 c2 t1 t2 Hc _ IH]; intros [|k]; cbn [nth]; auto. }
  now rewrite Hs.
Qed.

Lemma get_proteins_in_cluster_order_free_witness :
  ClusterOverview.get_proteins_in_cluster (fun d f => (d ++ "/" ++ f)%string)
    "louvain.pkl" 0 "cluster_0.txt" "data/output"
    (BottleneckAnalysis.Pickled
       {| graph := graph path_data; communities := [["D"; "B"; "A"; "C"]] |})
  = ClusterOverview.get_proteins_in_cluster (fun d f => (d ++ "/" ++ f)%string)
      "louvain.pkl" 0 "cluster_0.txt" "data/output"
      (BottleneckAnalysis.Pickled path_data).
Proof.
  apply (get_proteins_in_cluster_order_free (fun d f => (d ++ "/" ++ f)%string)
           "louvain.pkl" 0 "cluster_0.txt" "data/output"
           {| graph := graph path_data; communities := [["D"; "B"; "A"; "C"]] |}
           path_data).
  constructor; [|constructor].
  apply (Permutation_trans (l' := ["B"; "A"; "C"; "D"]));
    [apply (Permutation_cons_append ["B"; "A"; "C"] "D")|].
  apply (Permutation_trans (l' := ["A"; "B"; "C"; "D"])); [apply perm_swap|].
  apply Permutation_refl.
Defined.

(** * The annotated graph and its cluster plot *)

Lemma subgraph_nodes (G : Nx.Graph) (keep : list string) :
  Nx.nodes (Nx.subgraph G keep) = filter (fun n => Py.contains n keep) (Nx.nodes G).
Proof.
  unfold Nx.nodes, Nx.subgraph, Py.keys. rewrite map_map. cbn [fst].
  induction G as [|[n nbrs] t IH]; [reflexivity|]. cbn [filter map fst].
  destruct (Py.contains n keep); cbn [map fst]; now rewrite IH.
Qed.

Lemma filter_contains_self (p : string -> bool) (l : list string) :
  filter (fun n => Py.contains n (filter p l)) l = filter p l.
Proof.
  apply filter_ext_in. intros n Hn.
  destruct (p n) eqn:E.
  - apply contains_In. apply filter_In. now split.
  - destruct (Py.contains n (filter p l)) eqn:E'; [|reflexivity].
    apply contains_In in E'. apply filter_In in E'. destruct E'. congruence.
Qed.

Lemma count_target_colour (l : list string) (x a b : string) :
  a <> b -> NoDup l -> In x l ->
  count_occ string_dec (map (fun n => if String.eqb n x then a else b) l) a = 1.
Proof.
  intros Hab Hnd Hin.
  assert (Hzero : forall t, ~ In x t ->
    count_occ string_dec (map (fun n => if String.eqb n x then a else b) t) a = 0).
  { induction t as [|y t IHt]; intros Hx; [reflexivity|]. cbn [map count_occ].
    destruct (String.eqb y x) eqn:E.
    - apply String.eqb_eq in E. subst. exfalso. apply Hx. now left.
    - destruct (string_dec b a); [congruence|]. apply IHt. intros H. apply Hx. now right. }
  induction Hnd as [|y t Hy Hnd IH]; [destruct Hin|]. cbn [map count_occ].
  destruct Hin as [->|Hin].
  - rewrite String.eqb_refl. destruct (string_dec a a); [|congruence].
    now rewrite (Hzero t Hy).
  - destruct (String.eqb y x) eqn:E.
    + apply String.eqb_eq in E. subst. contradiction.
    + destruct (string_dec b a); [congruence|]. now apply IH.
Qed.

Lemma edges_from_In (seen : list string) (adj : Nx.Graph) (n m : string) :
  In (n, m) (NxViews.edges_from seen adj) ->
  exists nbrs, In (n, nbrs) adj /\ In m (Py.keys nbrs).
Proof.
  revert seen. induction adj as [|[k nbrs] t IH]; intros seen H; [destruct H|].
  cbn [NxViews.edges_from] in H. apply in_app_or in H. destruct H as [H|H].
  - apply in_map_iff in H. destruct H as [m' [[= <- <-] Hm]].
    apply filter_In in Hm. exists nbrs. split; [now left|tauto].
  - destruct (IH _ H) as [nbrs' [Hin Hm]]. exists nbrs'. split; [now right|exact Hm].
Qed.

Lemma subgraph_edges_inside (G : Nx.Graph) (keep : list string) (n m : string) :
  In (n, m) (NxViews.edges (Nx.subgraph G keep)) -> In n keep /\ In m keep.
Proof.
  intros H. apply edges_from_In in H. destruct H as [nbrs [Hin Hm]].
  unfold Nx.subgraph in Hin. apply in_map_iff in Hin.
  destruct Hin as [[n' nbrs'] [[= <- <-] Hin]]. apply filter_In in Hin.
  destruct Hin as [_ Hn]. cbn [fst snd] in *. split; [now apply contains_In|].
  unfold Py.keys in Hm. apply in_map_iff in Hm. destruct Hm as [[m' w] [<- Hmw]].
  apply filter_In in Hmw. destruct Hmw as [_ Hc]. now apply contains_In.
Qed.

(** X14: when [plot_cluster] draws, the extracted cluster holds the queried
    protein and only nodes of the graph; there is one colour per cluster
    node and exactly one node, the protein, has the target colour; every
    drawn edge joins two nodes of the cluster.  It stops early only when
    the protein is not a node or carries no cluster id. *)
Theorem plot_cluster_draws_target_once :
  forall (path protein : string) (ag : LouvainObjectOut.annotated),
    NoDup (Nx.nodes (LouvainObjectOut.ag_graph ag)) ->
    match PlotLouvain.plot_cluster path protein (PlotLouvain.Pickled ag) with
    | PlotLouvain.Plotted c cluster_nodes node_colors styled_edges =>
        In protein cluster_nodes
        /\ incl cluster_nodes (Nx.nodes (LouvainObjectOut.ag_graph ag))
        /\ List.length node_colors = List.length cluster_nodes
        /\ count_occ string_dec node_colors PlotLouvain.TARGET_NODE_COLOR = 1
        /\ Forall (fun e => In (fst (fst (fst e))) cluster_nodes
                            /\ In (snd (fst (fst e))) cluster_nodes)
                  styled_edges
    | PlotLouvain.Stopped _ =>
        ~ In protein (Nx.nodes (LouvainObjectOut.ag_graph ag))
        \/ Py.get protein (LouvainObjectOut.cluster_id ag) = None
    end.
Proof.
  intros path protein [G attrs] Hnd. cbn [LouvainObjectOut.ag_graph] in Hnd.
  unfold PlotLouvain.plot_cluster.
  cbn [LouvainObjectOut.ag_graph LouvainObjectOut.cluster_id].
  destruct (Py.mem protein G) eqn:Em; cbn [negb].
  2:{ left. intros H. apply get_mem_true in H. unfold Nx.nodes in *. congruence. }
  apply get_mem_true in Em.
  destruct (Py.get protein attrs) as [c|] eqn:Ec; [|now right].
  set (p := fun n => match Py.get n attrs with Some c' => c' =? c | None => false end).
  assert (Hin : In protein (filter p (Nx.nodes G))).
  { apply filter_In. split; [exact Em|]. unfold p. rewrite Ec. apply Nat.eqb_refl. }
  rewrite subgraph_nodes, filter_contains_self.
  split; [exact Hin|]. split; [intros n Hn; now apply filter_In in Hn|].
  split; [apply length_map|]. split.
  - apply count_target_colour; [discriminate|now apply NoDup_filter|exact Hin].
  - rewrite Forall_map, Forall_forall. intros [n m] He.
    apply subgraph_edges_inside in He.
    now destruct (String.eqb (fst (n, m)) protein || String.eqb (snd (n, m)) protein).
Qed.

Lemma plot_cluster_draws_target_once_witness :
  NoDup (Nx.nodes (graph path_data))
  /\ PlotLouvain.plot_cluster "louvain_annotated_graph.pkl" "B"
       (PlotLouvain.Pickled
          {| LouvainObjectOut.ag_graph := graph path_data;
             LouvainObjectOut.cluster_id := [("A", 0); ("B", 0); ("C", 1); ("D", 1)] |})
     = PlotLouvain.Plotted 0 ["A"; "B"] ["#3b5b92"; "black"]
         [("A", "B", PlotLouvain.TARGET_EDGE_WIDTH, "black")]
  /\ count_occ string_dec ["#3b5b92"; "black"] PlotLouvain.TARGET_NODE_COLOR = 1.
Proof.
  assert (Hnd : NoDup (Nx.nodes (graph path_data))).
  { vm_compute. repeat constructor; simpl; intuition discriminate. }
  split; [exact Hnd|]. split; [reflexivity|].
  pose proof (plot_cluster_draws_target_once "louvain_annotated_graph.pkl" "B"
                {| LouvainObjectOut.ag_graph := graph path_data;
                   LouvainObjectOut.cluster_id :=
                     [("A", 0); ("B", 0); ("C", 1); ("D", 1)] |} Hnd) as H.
  vm_compute in H. destruct H as [_ [_ [_ [H4 _]]]]. vm_compute. exact H4.
Defined.

Lemma keys_set_NoDup {V : Type} (k : string) (v : V) (d : Py.dict V) :
  NoDup (Py.keys d) -> NoDup (Py.keys (Py.set k v d)).
Proof.
  intros Hnd. destruct (in_dec string_dec k (Py.keys d)) as [Hin|Hout].
  - assert (E : Py.keys (Py.set k v d) = Py.keys d); [|now rewrite E].
    clear Hnd. unfold Py.keys in *. induction d as [|[k' v'] t IH]; [destruct Hin|].
    cbn [Py.set]. destruct (String.eqb k k') eqn:E.
    + apply String.eqb_eq in E. now subst.
    + cbn [map fst]. f_equal. apply IH. destruct Hin as [Hin|Hin]; [|exact Hin].
      cbn in Hin. subst. now rewrite String.eqb_refl in E.
  - rewrite (set_new k v d Hout). unfold Py.keys in *. rewrite map_app.
    apply NoDup_app; [exact Hnd|repeat constructor; intros []|].
    intros x Hx [<-|[]]. contradiction.
Qed.

Lemma keys_node2cluster_NoDup (comms : list (list string)) :
  NoDup (Py.keys (node2cluster comms)).
Proof.
  unfold node2cluster, Py.enumerate.
  assert (H : forall i (d : Py.dict nat), NoDup (Py.keys d) ->
    NoDup (Py.keys
             (fold_left
                (fun d (ic : nat * list string) =>
                   fold_left (fun d n => Py.set n (fst ic) d) (snd ic) d)
                (Py.enumerate_from i comms) d))).
  { induction comms as [|c t IH]; intros i d Hd; [exact Hd|].
    cbn [Py.enumerate_from fold_left fst snd]. apply IH.
    clear IH. revert d Hd. induction c as [|n c IHc]; intros d Hd; [exact Hd|].
    cbn [fold_left]. apply IHc. now apply keys_set_NoDup. }
  apply H. constructor.
Qed.

Lemma get_set_node_attributes_from (G : Nx.Graph) (values attrs : Py.dict nat)
      (n : string) :
  NoDup (Py.keys values) ->
  Py.get n (fold_left (fun attrs (nv : string * nat) =>
                         if Py.mem (fst nv) G then Py.set (fst nv) (snd nv) attrs
                         else attrs)
                      values attrs)
  = match (if Py.mem n G then Py.get n values else None) with
    | Some v => Some v
    | None => Py.get n attrs
    end.
Proof.
  revert attrs. induction values as [|[k v] t IH]; intros attrs Hnd.
  - cbn. now destruct (Py.mem n G).
  - unfold Py.keys in Hnd. cbn [map fst] in Hnd.
    inversion Hnd as [|? ? Hk Hnd']; subst.
    cbn [fold_left fst snd]. rewrite (IH _ Hnd'). cbn [Py.get].
    destruct (String.eqb n k) eqn:E.
    + apply String.eqb_eq in E. subst k.
      assert (Hnone : Py.get n t = None) by (now apply get_None_keys).
      rewrite Hnone. destruct (Py.mem n G); [apply get_set_same|reflexivity].
    + apply String.eqb_neq in E.
      destruct (if Py.mem n G then Py.get n t else None); [reflexivity|].
      destruct (Py.mem k G); [|reflexivity]. apply get_set_other. congruence.
Qed.

Lemma get_set_node_attributes (G : Nx.Graph) (comms : list (list string)) (n : string) :
  Py.get n (LouvainObjectOut.set_node_attributes G (node2cluster comms))
  = if Py.mem n G then Py.get n (node2cluster comms) else None.
Proof.
  unfold LouvainObjectOut.set_node_attributes.
  rewrite get_set_node_attributes_from by apply keys_node2cluster_NoDup.
  destruct (Py.mem n G); [|reflexivity]. now destruct (Py.get n (node2cluster comms)).
Qed.

(** X15: saving then plotting.  On the graph object that the Louvain
    script saves, [plot_cluster] extracts for a protein exactly the nodes
    of the graph that the script's cluster mapping sends to the protein's
    cluster; it stops early exactly when the protein is no endpoint of an
    input row or is held by no community. *)
Theorem plot_cluster_recovers_saved_cluster :
  forall (louvain : Nx.Graph -> Q -> nat -> list (list Nx.node))
         (df : list record) (path protein : string),
    let G := build_graph df in
    let comms := louvain G LouvainObjectOut.LOUVAIN_RESOLUTION
                         LouvainObjectOut.LOUVAIN_SEED in
    match PlotLouvain.plot_cluster path protein
            (PlotLouvain.Pickled
               (LouvainObjectOut.saved (LouvainObjectOut.main louvain df))) with
    | PlotLouvain.Plotted c cluster_nodes _ _ =>
        In protein (endpoints df)
        /\ Py.get protein (node2cluster comms) = Some c
        /\ cluster_nodes
           = filter (fun n => match Py.get n (node2cluster comms) with
                              | Some c' => c' =? c
                              | None => false
                              end)
                    (Nx.nodes G)
    | PlotLouvain.Stopped _ =>
        ~ In protein (endpoints df) \/ (forall c, In c comms -> ~ In protein c)
    end.
Proof.
  intros louvain df path protein G comms.
  unfold PlotLouvain.plot_cluster, LouvainObjectOut.main.
  cbn [LouvainObjectOut.saved LouvainObjectOut.ag_graph LouvainObjectOut.cluster_id].
  fold G. fold comms.
  assert (Hnodes : forall n, In n (Nx.nodes G) <-> In n (endpoints df)).
  { intros n. unfold G. rewrite nodes_build_graph_first_seen, <- in_rev, nodup_In, <- in_rev.
    reflexivity. }
  destruct (Py.mem protein G) eqn:Em; cbn [negb].
  2:{ left. intros H. apply Hnodes in H. apply get_mem_true in H. congruence. }
  rewrite get_set_node_attributes, Em.
  destruct (Py.get protein (node2cluster comms)) as [c|] eqn:Ec.
  - split; [apply Hnodes; now apply get_mem_true|]. split; [reflexivity|].
    apply filter_ext_in. intros n Hn. rewrite get_set_node_attributes.
    apply get_mem_true in Hn. now rewrite Hn.
  - right. rewrite get_node2cluster in Ec. now apply last_holder_None.
Qed.

(** X16: the size summary of the Louvain script.  The listed community
    sizes are the sizes of the communities in descending order, one per
    community, and every size among the ten printed is at least as large
    as every size left out. *)
Theorem louvain_summary_sizes :
  forall (louvain : Nx.Graph -> Q -> nat -> list (list Nx.node)) (df : list record),
    let s := LouvainObjectOut.main louvain df in
    let comms := louvain (build_graph df) LouvainObjectOut.LOUVAIN_RESOLUTION
                         LouvainObjectOut.LOUVAIN_SEED in
    Permutation (LouvainObjectOut.community_sizes s) (map (@List.length string) comms)
    /\ StronglySorted (fun a b => b <= a) (LouvainObjectOut.community_sizes s)
    /\ List.length (LouvainObjectOut.community_sizes s)
       = LouvainObjectOut.total_clusters s
    /\ Forall (fun a => Forall (fun b => b <= a)
                               (skipn 10 (LouvainObjectOut.community_sizes s)))
              (LouvainObjectOut.largest_10 s).
Proof.
  intros louvain df s comms. unfold s, LouvainObjectOut.main.
  cbn [LouvainObjectOut.community_sizes LouvainObjectOut.total_clusters
       LouvainObjectOut.largest_10].
  fold comms.
  set (sizes := Py.sorted (fun a b : nat => b <=? a) (map (@List.length string) comms)).
  assert (Hs : StronglySorted (fun a b => b <= a) sizes).
  { eapply StronglySorted_weaken;
      [|apply (sorted_sorted (fun a b : nat => b <=? a))].
    - intros a b H. cbv beta in H. now apply Nat.leb_le.
    - intros x y. rewrite !Nat.leb_le. lia.
    - intros x y z. rewrite !Nat.leb_le. lia. }
  split; [apply sorted_perm|]. split; [exact Hs|]. split.
  - unfold sizes. now rewrite sorted_length, length_map.
  - rewrite <- (firstn_skipn 10 sizes) in Hs.
    clear -Hs. induction (firstn 10 sizes) as [|a t IH]; [constructor|].
    cbn [app] in Hs. inversion Hs as [|? ? Hs' Hall]; subst.
    constructor; [|now apply IH].
    apply Forall_app in Hall. tauto.
Qed.

(** * The size of the betweenness sample *)

(** X17: the sample of the approximate betweenness.  For a subgraph of n
    nodes the sample size k = int(0.20 * n) satisfies 5 k <= n < 5 k + 5,
    so it is 0 exactly for fewer than five nodes; with a threshold of at
    least 4 the approximate mode always samples between 1 and n nodes. *)
Theorem k_sample_bounds :
  forall n large_cluster_limit : nat,
    (Z.of_nat n < 2 ^ 52)%Z ->
    5 * BottleneckAnalysis.k_sample n <= n < 5 * BottleneckAnalysis.k_sample n + 5
    /\ (BottleneckAnalysis.k_sample n = 0 <-> n < 5)
    /\ (4 <= large_cluster_limit -> large_cluster_limit < n ->
        exists k, BottleneckAnalysis.betweenness_mode n large_cluster_limit
                  = Approximate k 42
                  /\ 1 <= k <= n).
Proof.
  intros n limit Hn. rewrite (k_sample_fifth n Hn).
  pose proof (Nat.div_mod_eq n 5) as Hdm.
  assert (Hr : n mod 5 < 5) by (apply Nat.mod_upper_bound; discriminate).
  split; [lia|]. split; [lia|].
  intros H4 Hlt. exists (n / 5). split; [|lia].
  unfold BottleneckAnalysis.betweenness_mode.
  apply Nat.ltb_lt in Hlt. rewrite Hlt. now rewrite (k_sample_fifth n Hn).
Qed.

Lemma k_sample_bounds_witness :
  (Z.of_nat 4 < 2 ^ 52)%Z
  /\ BottleneckAnalysis.k_sample 4 = 0
  /\ BottleneckAnalysis.betweenness_mode 4 3 = Approximate 0 42.
Proof.
  split; [reflexivity|]. split; [|reflexivity].
  apply (proj1 (proj2 (k_sample_bounds 4 3 eq_refl))). repeat constructor.
Defined.

(** * The number of compared pairs *)

Lemma combinations_length {A : Type} (l : list A) :
  2 * List.length (Reproducibility.combinations l)
  = List.length l * (List.length l - 1).
Proof.
  induction l as [|x t IH]; [reflexivity|].
  cbn [Reproducibility.combinations List.length].
  rewrite length_app, length_map. nia.
Qed.

(** X18: the reproducibility comparison scores every unordered pair of
    runs once: k runs give k (k - 1) / 2 values of each score, 45 for the
    ten seeds of the script; it raises (KeyError) only when some run leaves
    a node of the graph outside every community. *)
Theorem compare_scores_every_pair_once :
  forall (runs : list (list (list Nx.node))) (nodes : list Nx.node),
    match Reproducibility.compare runs nodes with
    | Some rep =>
        2 * List.length (Reproducibility.ari_scores rep)
        = List.length runs * (List.length runs - 1)
        /\ List.length (Reproducibility.nmi_scores rep)
           = List.length (Reproducibility.ari_scores rep)
    | None =>
        exists comms n, In comms runs /\ In n nodes
                        /\ forall c, In c comms -> ~ In n c
    end
    /\ (forall louvain data,
          match Reproducibility.main louvain data with
          | Some rep => List.length (Reproducibility.ari_scores rep) = 45
                        /\ List.length (Reproducibility.nmi_scores rep) = 45
          | None => True
          end).
Proof.
  intros runs nodes.
  assert (Hgen : forall rs ns,
    match Reproducibility.compare rs ns with
    | Some rep =>
        2 * List.length (Reproducibility.ari_scores rep)
        = List.length rs * (List.length rs - 1)
        /\ List.length (Reproducibility.nmi_scores rep)
           = List.length (Reproducibility.ari_scores rep)
    | None =>
        exists comms n, In comms rs /\ In n ns /\ forall c, In c comms -> ~ In n c
    end).
  { intros rs ns. unfold Reproducibility.compare.
    destruct (Py.all_some _) as [vectors|] eqn:E.
    - cbn [Reproducibility.ari_scores Reproducibility.nmi_scores].
      rewrite !length_map, combinations_length.
      apply all_some_Forall2 in E. apply Forall2_length_eq in E.
      rewrite E. split; reflexivity.
    - apply all_some_None in E. destruct E as [comms [Hc Hnone]].
      pose proof (communities_to_labels_labels_or_raises_aux comms ns) as H.
      rewrite Hnone in H. destruct H as [n [Hn Hout]].
      exists comms, n. auto. }
  split; [apply Hgen|].
  intros louvain data. unfold Reproducibility.main.
  pose proof (Hgen (map (fun s => louvain (graph data) Reproducibility.RESOLUTION s)
                        Reproducibility.SEEDS)
                   (Nx.nodes (graph data))) as H.
  destruct (Reproducibility.compare _ _) as [rep|]; [|exact I].
  destruct H as [H1 H2]. rewrite length_map in H1.
  change (List.length Reproducibility.SEEDS) with 10 in H1. lia.
Qed.

(** * The report of [btl_anal] *)







(** * The outcomes of [get_proteins_in_cluster] *)

(** X20: [get_proteins_in_cluster] returns a list, and writes its one
    file, only for a readable pickle and a cluster id that indexes a
    community; for a missing file, a load error with a message, or an id
    out of range it returns [None] and writes nothing; a load error whose
    message is empty passes the [if error:] test and the call raises on
    [data['communities']]. *)
Theorem get_proteins_in_cluster_outcomes :
  forall (os_path_join : string -> string -> string)
         (pickle_path : string) (cluster_id : Z)
         (output_filename output_dir : string)
         (disk : BottleneckAnalysis.pickle_state),
    match ClusterOverview.get_proteins_in_cluster os_path_join pickle_path
            cluster_id output_filename output_dir disk with
    | ClusterOverview.Returns (Some l) _ written =>
        written = [(output_dir, output_filename, l)]
        /\ exists data,
             disk = BottleneckAnalysis.Pickled data
             /\ (0 <= cluster_id < Z.of_nat (List.length (communities data)))%Z
    | ClusterOverview.Returns None _ written =>
        written = []
        /\ (disk = BottleneckAnalysis.Missing
            \/ (exists e, disk = BottleneckAnalysis.Unreadable e /\ e <> ""%string)
            \/ (exists data,
                  disk = BottleneckAnalysis.Pickled data
                  /\ ~ (0 <= cluster_id < Z.of_nat (List.length (communities data)))%Z))
    | ClusterOverview.Raises e =>
        e = "TypeError"%string /\ disk = BottleneckAnalysis.Unreadable ""
    end.
Proof.
  intros join path cid fname dir disk.
  unfold ClusterOverview.get_proteins_in_cluster, ClusterOverview._load_pickle_data.
  destruct disk as [|e|data].
  - cbn. split; [reflexivity|]. now left.
  - destruct e as [|a e]; cbn.
    + split; reflexivity.
    + split; [reflexivity|]. right. left. exists (String a e).
      split; [reflexivity|discriminate].
  - cbn [ClusterOverview.truthy].
    destruct ((cid <? 0)%Z || (Z.of_nat (List.length (communities data)) <=? cid)%Z)
      eqn:E.
    + split; [reflexivity|]. right. right. exists data. split; [reflexivity|].
      apply Bool.orb_true_iff in E. destruct E as [E|E]; lia.
    + split; [reflexivity|]. exists data. split; [reflexivity|].
      apply Bool.orb_false_iff in E. destruct E as [E1 E2]. lia.
Qed.

(** * The statistics table of [02_analyze_clusters] *)

Lemma adj_ok_incl (ns ns' : list string) (na : string * Py.dict Q) :
  incl ns ns' -> adj_ok ns na -> adj_ok ns' na.
Proof.
  intros Hi [H1 [H2 H3]]. split; [exact H1|]. split; [exact H2|].
  intros x Hx. apply Hi, H3, Hx.
Qed.

Lemma simple_add_node (n : string) (G : Nx.Graph) :
  simple_graph G -> simple_graph (Nx.add_node n G).
Proof.
  unfold Nx.add_node. destruct (Py.mem n G) eqn:E; [auto|].
  intros [Hnd Hall].
  assert (Hn : ~ In n (Py.keys G)).
  { intros Hin. apply get_mem_true in Hin. congruence. }
  assert (Hk : Nx.nodes (G ++ [(n, [])]) = Nx.nodes G ++ [n]).
  { unfold Nx.nodes, Py.keys. now rewrite map_app. }
  split.
  - rewrite Hk. apply (Permutation_NoDup (Permutation_cons_append (Nx.nodes G) n)).
    constructor; assumption.
  - rewrite Hk. apply Forall_app. split.
    + eapply Forall_impl; [|exact Hall]. intros na. apply adj_ok_incl.
      apply incl_appl, incl_refl.
    + constructor; [|constructor]. split; [constructor|].
      split; [intros []|intros x []].
Qed.

Lemma Forall_update (P : string * Py.dict Q -> Prop) (k : string)
      (f : Py.dict Q -> Py.dict Q) (G : Nx.Graph) :
  Forall P G -> (forall v, P (k, v) -> P (k, f v)) -> Forall P (Py.update k f G).
Proof.
  induction G as [|[k' v'] t IH]; intros H Hf; cbn; [constructor|].
  inversion H as [|? ? Hh Ht]; subst. destruct (String.eqb k k') eqn:E.
  - apply String.eqb_eq in E. subst. constructor; auto.
  - constructor; auto.
Qed.

Lemma simple_update_set (u v : string) (w : Q) (G : Nx.Graph) :
  simple_graph G -> u <> v -> In v (Nx.nodes G) ->
  simple_graph (Py.update u (Py.set v w) G).
Proof.
  intros [Hnd Hall] Huv Hv. unfold simple_graph, Nx.nodes.
  rewrite keys_update. split; [exact Hnd|].
  apply Forall_update; [exact Hall|].
  intros nbrs Hok. unfold adj_ok in *. cbn [fst snd] in *.
  destruct Hok as [H1 [H2 H3]].
  split; [now apply keys_set_NoDup|]. split.
  - rewrite keys_set. intros [E|H]; [congruence|contradiction].
  - intros x Hx. apply keys_set in Hx. destruct Hx as [->|Hx]; [exact Hv|].
    now apply H3.
Qed.

Lemma simple_add_edge (G : Nx.Graph) (u v : string) (w : Q) :
  simple_graph G -> u <> v -> simple_graph (Nx.add_edge G u v w).
Proof.
  intros HG Huv. unfold Nx.add_edge.
  set (G2 := Nx.add_node v (Nx.add_node u G)).
  assert (H2 : simple_graph G2) by (apply simple_add_node, simple_add_node, HG).
  assert (Hv : In v (Nx.nodes G2)) by (apply get_mem_true, mem_add_node).
  assert (Hu : In u (Nx.nodes G2)).
  { apply get_mem_true, mem_add_node_mono, mem_add_node. }
  apply simple_update_set.
  - now apply simple_update_set.
  - congruence.
  - unfold Nx.nodes. now rewrite keys_update.
Qed.

Lemma simple_build_graph (rows : list record) :
  (forall p1 p2 s, In (p1, p2, s) rows -> p1 <> p2) ->
  simple_graph (build_graph rows).
Proof.
  unfold build_graph.
  assert (H : forall G, simple_graph G ->
            (forall p1 p2 s, In (p1, p2, s) rows -> p1 <> p2) ->
            simple_graph (fold_left
              (fun G (r : record) => let '(p1, p2, score) := r in Nx.add_edge G p1 p2 score)
              rows G)).
  { induction rows as [|[[p1 p2] s] t IH]; intros G HG Hr; cbn; [exact HG|].
    apply IH.
    - apply simple_add_edge; [exact HG|]. apply (Hr p1 p2 s). now left.
    - intros a b c Hin. apply (Hr a b c). now right. }
  apply H. split; [constructor|constructor].
Qed.

Lemma keys_filter_contains (keep : list string) (nbrs : Py.dict Q) :
  Py.keys (filter (fun mw : string * Q => Py.contains (fst mw) keep) nbrs)
  = filter (fun m => Py.contains m keep) (Py.keys nbrs).
Proof.
  unfold Py.keys. induction nbrs as [|[m w] t IH]; [reflexivity|]. cbn.
  destruct (Py.contains m keep); cbn; now rewrite IH.
Qed.

Lemma simple_subgraph (G : Nx.Graph) (keep : list string) :
  simple_graph G -> simple_graph (Nx.subgraph G keep).
Proof.
  intros [Hnd Hall]. split.
  - rewrite subgraph_nodes. now apply NoDup_filter.
  - rewrite subgraph_nodes. unfold Nx.subgraph.
    rewrite Forall_map, Forall_forall. intros [n nbrs] Hin.
    apply filter_In in Hin. destruct Hin as [Hin Hkeep].
    rewrite Forall_forall in Hall. destruct (Hall _ Hin) as [H1 [H2 H3]].
    cbn [fst snd] in *. unfold adj_ok. cbn [fst snd].
    rewrite keys_filter_contains. split; [now apply NoDup_filter|]. split.
    + intros H. apply filter_In in H. tauto.
    + intros x Hx. apply filter_In in Hx. destruct Hx as [Hx Hk].
      apply filter_In. split; [now apply H3|exact Hk].
Qed.

Lemma degree_sum_bound (G : Nx.Graph) :
  simple_graph G ->
  fold_right Nat.add 0 (map snd (Nx.degree G))
  <= Nx.number_of_nodes G * (Nx.number_of_nodes G - 1).
Proof.
  intros [Hnd Hall]. unfold Nx.number_of_nodes.
  assert (Hb : Forall (fun d => d <= List.length G - 1) (map snd (Nx.degree G))).
  { unfold Nx.degree. rewrite map_map. cbn [snd]. rewrite Forall_map.
    rewrite Forall_forall in Hall |- *. intros [n nbrs] Hin.
    destruct (Hall _ Hin) as [H1 [H2 H3]]. cbn [fst snd] in *.
    assert (Hm : Py.mem n nbrs = false).
    { destruct (Py.mem n nbrs) eqn:E; [|reflexivity].
      apply get_mem_true in E. contradiction. }
    rewrite Hm.
    assert (Hlen : List.length (n :: Py.keys nbrs) <= List.length (Nx.nodes G)).
    { apply NoDup_incl_length; [now constructor|].
      intros x [<-|Hx]; [|now apply H3].
      unfold Nx.nodes, Py.keys. now apply (in_map fst _ _ Hin). }
    unfold Nx.nodes, Py.keys in Hlen. cbn [List.length] in Hlen.
    rewrite !length_map in Hlen. lia. }
  assert (Hl : List.length (map snd (Nx.degree G)) = List.length G).
  { unfold Nx.degree. now rewrite !length_map. }
  rewrite <- Hl at 1. clear Hl. revert Hb.
  generalize (List.length G - 1) as b. generalize (map snd (Nx.degree G)) as ds.
  induction ds as [|d t IH]; intros b Hb; cbn; [lia|].
  inversion Hb as [|? ? Hd Ht]; subst. specialize (IH b Ht). lia.
Qed.

Lemma edges_bound (G : Nx.Graph) :
  simple_graph G ->
  2 * AnalyzeClusters.number_of_edges G
  <= Nx.number_of_nodes G * (Nx.number_of_nodes G - 1).
Proof.
  intros HG. unfold AnalyzeClusters.number_of_edges.
  pose proof (degree_sum_bound G HG) as Hs.
  pose proof (Nat.Div0.mul_div_le (fold_right Nat.add 0 (map snd (Nx.degree G))) 2).
  lia.
Qed.

Lemma density_bounds (G : Nx.Graph) :
  2 * AnalyzeClusters.number_of_edges G
  <= Nx.number_of_nodes G * (Nx.number_of_nodes G - 1) ->
  (0 <= AnalyzeClusters.density G <= 1)%Q.
Proof.
  intros Hm. unfold AnalyzeClusters.density.
  set (m := AnalyzeClusters.number_of_edges G) in *.
  set (n := Nx.number_of_nodes G) in *.
  destruct ((m =? 0) || (n <=? 1)) eqn:E.
  - split; [apply Qle_refl|discriminate].
  - apply Bool.orb_false_iff in E. destruct E as [E1 E2].
    apply Nat.eqb_neq in E1. apply Nat.leb_gt in E2.
    assert (Hc : (0 < inject_Z (Z.of_nat (n * (n - 1))))%Q).
    { unfold Qlt. cbn. nia. }
    split.
    + apply Qmult_le_0_compat; [|discriminate].
      apply Qle_shift_div_l; [exact Hc|]. unfold Qle. cbn. lia.
    + assert (Hh : (inject_Z (Z.of_nat m) / inject_Z (Z.of_nat (n * (n - 1)))
                    <= 1 # 2)%Q).
      { apply Qle_shift_div_r; [exact Hc|].
        unfold Qle, Qmult, inject_Z. cbn [Qnum Qden]. lia. }
      apply (Qmult_le_compat_r _ _ 2) in Hh; [|discriminate].
      eapply Qle_trans; [exact Hh|]. discriminate.
Qed.

(** X21: the statistics table of [02_analyze_clusters].  For a graph
    built from records that never join a protein with itself and at least
    one community, the table has one row per community id, and every row
    has at most as many nodes as the graph, at most n(n-1)/2 edges for
    its n nodes, and a density between 0 and 1. *)
Theorem cluster_table_density_bounds :
  forall (average_clustering : Nx.Graph -> option Q)
         (sort_values : list AnalyzeClusters.crow -> list AnalyzeClusters.crow)
         (path : string) (rows : list record) (comms : list (list Nx.node)),
    (forall p1 p2 s, In (p1, p2, s) rows -> p1 <> p2) ->
    comms <> [] ->
    (forall l, Permutation (sort_values l) l) ->
    exists st,
      AnalyzeClusters.main average_clustering sort_values path
        (BottleneckAnalysis.Pickled
           {| graph := build_graph rows; communities := comms |})
      = AnalyzeClusters.Analysed st
      /\ Permutation (map AnalyzeClusters.Cluster_ID (AnalyzeClusters.df_clusters st))
                     (seq 0 (List.length comms))
      /\ Forall (fun r =>
                   AnalyzeClusters.Size r <= Nx.number_of_nodes (build_graph rows)
                   /\ 2 * AnalyzeClusters.Edges r
                      <= AnalyzeClusters.Size r * (AnalyzeClusters.Size r - 1)
                   /\ (0 <= AnalyzeClusters.Density r <= 1)%Q)
                (AnalyzeClusters.df_clusters st).
Proof.
  intros avg sortv path rows comms Hrows Hne Hsort.
  unfold AnalyzeClusters.main. cbn [graph communities].
  destruct (map (AnalyzeClusters.cluster_row avg (build_graph rows))
                (Py.enumerate comms)) as [|r0 rs] eqn:Erows.
  { destruct comms; [congruence|discriminate]. }
  rewrite <- Erows. clear Erows r0 rs.
  eexists. split; [reflexivity|]. cbn [AnalyzeClusters.df_clusters].
  set (G := build_graph rows).
  assert (HG : simple_graph G) by now apply simple_build_graph.
  split.
  - rewrite (Permutation_map _ (Hsort _)), map_map. cbn [AnalyzeClusters.cluster_row
      AnalyzeClusters.Cluster_ID]. unfold Py.enumerate. clear Hne.
    generalize 0 as i. induction comms as [|c t IH]; intros i; [reflexivity|].
    cbn. now rewrite IH.
  - eapply Permutation_Forall; [symmetry; apply Hsort|].
    rewrite Forall_map, Forall_forall. intros [i c] _.
    unfold AnalyzeClusters.cluster_row.
    cbn [AnalyzeClusters.Size AnalyzeClusters.Edges AnalyzeClusters.Density snd].
    pose proof (edges_bound _ (simple_subgraph G c HG)) as He.
    split; [|split; [exact He|now apply density_bounds]].
    unfold Nx.number_of_nodes, Nx.subgraph. rewrite length_map.
    apply filter_length_le.
Qed.

Lemma cluster_table_density_bounds_witness :
  exists st,
    AnalyzeClusters.main (fun _ => Some 0%Q) (fun l => l) "louvain.pkl"
      (BottleneckAnalysis.Pickled
         {| graph := build_graph [("A", "B", 1%Q); ("B", "C", 1%Q); ("A", "C", 1%Q)];
            communities := [["A"; "B"; "C"]] |})
    = AnalyzeClusters.Analysed st
    /\ map AnalyzeClusters.Edges (AnalyzeClusters.df_clusters st) = [3]
    /\ Forall (fun r => (AnalyzeClusters.Density r <= 1)%Q)
              (AnalyzeClusters.df_clusters st).
Proof.
  destruct (cluster_table_density_bounds (fun _ => Some 0%Q) (fun l => l) "louvain.pkl"
              [("A", "B", 1%Q); ("B", "C", 1%Q); ("A", "C", 1%Q)] [["A"; "B"; "C"]])
    as [st [Heq [_ Hall]]].
  - intros p1 p2 s [E|[E|[E|[]]]]; injection E as <- <- <-; discriminate.
  - discriminate.
  - intros l. apply Permutation_refl.
  - exists st. split; [exact Heq|]. split.
    + vm_compute in Heq. injection Heq as <-. reflexivity.
    + eapply Forall_impl; [|exact Hall]. intros r [_ [_ [_ H]]]. exact H.
Defined.

(** * The cluster sizes of [02_analyze_clusters] *)

Lemma fold_set_fresh (c : list string) (i : nat) (d : Py.dict nat) :
  NoDup (Py.keys d ++ c) ->
  fold_left (fun d n => Py.set n i d) c d = d ++ map (fun n => (n, i)) c.
Proof.
  revert d. induction c as [|n t IH]; intros d Hnd; cbn.
  - now rewrite app_nil_r.
  - assert (Hn : ~ In n (Py.keys d)).
    { intros Hin. apply NoDup_remove_2 in Hnd. apply Hnd.
      apply in_or_app. now left. }
    rewrite (set_new n i d Hn). rewrite IH.
    + now rewrite <- app_assoc.
    + unfold Py.keys in *. rewrite map_app. cbn. now rewrite <- app_assoc.
Qed.

Lemma node2cluster_fresh (comms : list (list string)) (i : nat) (d : Py.dict nat) :
  NoDup (Py.keys d ++ List.concat comms) ->
  fold_left
    (fun d (ic : nat * list string) =>
       fold_left (fun d n => Py.set n (fst ic) d) (snd ic) d)
    (Py.enumerate_from i comms) d
  = d ++ List.concat (map (fun ic : nat * list string =>
                             map (fun n => (n, fst ic)) (snd ic))
                          (Py.enumerate_from i comms)).
Proof.
  revert i d. induction comms as [|c t IH]; intros i d Hnd; cbn.
  - now rewrite app_nil_r.
  - cbn in Hnd. rewrite app_assoc in Hnd.
    rewrite fold_set_fresh by (apply (NoDup_app_remove_r _ _ Hnd)).
    rewrite IH.
    + now rewrite <- app_assoc.
    + unfold Py.keys in *. rewrite map_app, map_map. cbn. now rewrite map_id.
Qed.

Lemma counter_incr_new (k : nat) (c : list (nat * nat)) :
  ~ In k (map fst c) -> AnalyzeClusters.counter_incr k c = c ++ [(k, 1)].
Proof.
  induction c as [|[k' n] t IH]; intros Hk; cbn; [reflexivity|]. cbn in Hk.
  destruct (k' =? k) eqn:E.
  - apply Nat.eqb_eq in E. tauto.
  - rewrite IH; [reflexivity|tauto].
Qed.

Lemma counter_incr_last (k n : nat) (c : list (nat * nat)) :
  ~ In k (map fst c) ->
  AnalyzeClusters.counter_incr k (c ++ [(k, n)]) = c ++ [(k, S n)].
Proof.
  induction c as [|[k' n'] t IH]; intros Hk; cbn.
  - now rewrite Nat.eqb_refl.
  - cbn in Hk. destruct (k' =? k) eqn:E.
    + apply Nat.eqb_eq in E. tauto.
    + rewrite IH; [reflexivity|tauto].
Qed.

Lemma counter_repeat (k n : nat) (rest : list nat) (c : list (nat * nat)) :
  ~ In k (map fst c) ->
  forall m,
    fold_left (fun c k => AnalyzeClusters.counter_incr k c) (repeat k n ++ rest)
              (c ++ [(k, m)])
    = fold_left (fun c k => AnalyzeClusters.counter_incr k c) rest
                (c ++ [(k, n + m)]).
Proof.
  intros Hk. induction n as [|n IH]; intros m; [reflexivity|].
  cbn [repeat app fold_left]. rewrite counter_incr_last by exact Hk.
  rewrite IH. now replace (n + S m) with (S n + m) by lia.
Qed.

Lemma counter_block (k n : nat) (rest : list nat) (c : list (nat * nat)) :
  ~ In k (map fst c) ->
  fold_left (fun c k => AnalyzeClusters.counter_incr k c) (repeat k n ++ rest) c
  = fold_left (fun c k => AnalyzeClusters.counter_incr k c) rest
              (c ++ (if 0 <? n then [(k, n)] else [])).
Proof.
  intros Hk. destruct n as [|n].
  - cbn. now rewrite app_nil_r.
  - cbn [repeat app fold_left]. rewrite counter_incr_new by exact Hk.
    rewrite counter_repeat by exact Hk.
    now replace (n + 1) with (S n) by lia.
Qed.

Lemma counter_blocks (comms : list (list string)) (i : nat) (c : list (nat * nat)) :
  (forall k, In k (map fst c) -> k < i) ->
  fold_left (fun c k => AnalyzeClusters.counter_incr k c)
            (List.concat (map (fun ic : nat * list string =>
                                 repeat (fst ic) (List.length (snd ic)))
                              (Py.enumerate_from i comms))) c
  = c ++ filter (fun kn : nat * nat => 0 <? snd kn)
                (map (fun ic : nat * list string => (fst ic, List.length (snd ic)))
                     (Py.enumerate_from i comms)).
Proof.
  revert i c. induction comms as [|cm t IH]; intros i c Hc; cbn.
  - now rewrite app_nil_r.
  - rewrite counter_block.
    + rewrite IH.
      * rewrite <- app_assoc. f_equal. now destruct (List.length cm).
      * intros k Hk. rewrite map_app in Hk. apply in_app_or in Hk.
        destruct Hk as [Hk|Hk]; [specialize (Hc k Hk); lia|].
        destruct (0 <? List.length cm); cbn in Hk; [|destruct Hk].
        destruct Hk as [<-|[]]. lia.
    + intros Hk. specialize (Hc i Hk). lia.
Qed.

Lemma sizes_of_enumerate (comms : list (list string)) (i : nat) :
  map snd (filter (fun kn : nat * nat => 0 <? snd kn)
             (map (fun ic : nat * list string => (fst ic, List.length (snd ic)))
                  (Py.enumerate_from i comms)))
  = filter (fun s => 0 <? s) (map (@List.length string) comms).
Proof.
  revert i. induction comms as [|c t IH]; intros i; [reflexivity|]. cbn.
  destruct (List.length c); cbn; now rewrite IH.
Qed.

(** X22: the global figures of [02_analyze_clusters].  When no node is
    listed twice in the communities, the number of nodes clustered is the
    total of the community sizes, and the sizes counted back from the
    node-to-cluster lookup are the sizes of the communities that are not
    empty, in community order: the median printed is their median. *)
Theorem cluster_sizes_of_partition :
  forall (average_clustering : Nx.Graph -> option Q)
         (sort_values : list AnalyzeClusters.crow -> list AnalyzeClusters.crow)
         (path : string) (G : Nx.Graph) (comms : list (list Nx.node)),
    NoDup (List.concat comms) ->
    comms <> [] ->
    AnalyzeClusters.Counter (map snd (node2cluster comms))
    = filter (fun kn : nat * nat => 0 <? snd kn)
             (Py.enumerate (map (@List.length string) comms))
    /\ exists st,
         AnalyzeClusters.main average_clustering sort_values path
           (BottleneckAnalysis.Pickled {| graph := G; communities := comms |})
         = AnalyzeClusters.Analysed st
         /\ AnalyzeClusters.total_nodes_clustered st = List.length (List.concat comms)
         /\ AnalyzeClusters.median_size st
            = AnalyzeClusters.np_median
                (filter (fun s => 0 <? s) (map (@List.length string) comms)).
Proof.
  intros avg sortv path G comms Hnd Hne.
  assert (Hn2c : node2cluster comms
                 = List.concat (map (fun ic : nat * list string =>
                                       map (fun n => (n, fst ic)) (snd ic))
                                    (Py.enumerate comms))).
  { unfold node2cluster, Py.enumerate. now rewrite node2cluster_fresh. }
  assert (Hvals : map snd (node2cluster comms)
                  = List.concat (map (fun ic : nat * list string =>
                                        repeat (fst ic) (List.length (snd ic)))
                                     (Py.enumerate comms))).
  { rewrite Hn2c. unfold Py.enumerate. generalize 0 as i. clear.
    induction comms as [|c t IH]; intros i; [reflexivity|]. cbn.
    rewrite map_app, IH. f_equal. rewrite map_map. cbn.
    clear. induction c as [|x t IH]; [reflexivity|]. cbn. now rewrite IH. }
  assert (Hcount : AnalyzeClusters.Counter (map snd (node2cluster comms))
                   = filter (fun kn : nat * nat => 0 <? snd kn)
                       (map (fun ic : nat * list string =>
                               (fst ic, List.length (snd ic)))
                            (Py.enumerate comms))).
  { rewrite Hvals. unfold AnalyzeClusters.Counter, Py.enumerate.
    rewrite counter_blocks; [reflexivity|]. intros k []. }
  split.
  - rewrite Hcount. f_equal. unfold Py.enumerate. generalize 0 as i. clear.
    induction comms as [|c t IH]; intros i; [reflexivity|]. cbn. now rewrite IH.
  - unfold AnalyzeClusters.main. cbn [graph communities].
    destruct (map (AnalyzeClusters.cluster_row avg G) (Py.enumerate comms))
      as [|r0 rs] eqn:Erows.
    { destruct comms; [congruence|discriminate]. }
    eexists. split; [reflexivity|].
    cbn [AnalyzeClusters.total_nodes_clustered AnalyzeClusters.median_size]. split.
    + rewrite <- (length_map snd), Hvals. unfold Py.enumerate.
      generalize 0 as i. clear.
      induction comms as [|c t IH]; intros i; [reflexivity|]. cbn.
      rewrite !length_app, IH. now rewrite repeat_length.
    + rewrite Hcount. unfold Py.enumerate. now rewrite sizes_of_enumerate.
Qed.

Lemma cluster_sizes_of_partition_witness :
  AnalyzeClusters.Counter (map snd (node2cluster [["A"; "B"]; []; ["C"]]))
  = [(0, 2); (2, 1)]
  /\ exists st,
       AnalyzeClusters.main (fun _ => None) (fun l => l) "louvain.pkl"
         (BottleneckAnalysis.Pickled
            {| graph := build_graph [("A", "B", 1%Q)];
               communities := [["A"; "B"]; []; ["C"]] |})
       = AnalyzeClusters.Analysed st
       /\ AnalyzeClusters.total_nodes_clustered st = 3
       /\ AnalyzeClusters.median_size st = Some ((2 + 1) / 2)%Q.
Proof.
  assert (Hnd : NoDup (List.concat [["A"; "B"]; []; ["C"]])).
  { vm_compute. repeat constructor; simpl; intuition discriminate. }
  assert (Hne : [["A"; "B"]; []; ["C"]] <> @nil (list string)) by discriminate.
  exact (cluster_sizes_of_partition (fun _ => None) (fun l => l) "louvain.pkl"
           (build_graph [("A", "B", 1%Q)]) [["A"; "B"]; []; ["C"]] Hnd Hne).
Defined.
